(** * Velan grocery shop backend: the catalog and order service of [server.js]

    A shallow embedding of the Express application of [src/server.js]: the
    four SQLite tables created at start-up, one store operation per SQL
    statement the handlers issue, the multer upload middleware, and one
    handler per registered route.  The theorems at the end state what the
    handlers do to the store and what they answer. *)

From Stdlib Require Import ZArith List String Ascii Bool Lia.
From Stdlib Require Import Permutation Sorted DecimalString DecimalZ DecimalPos.
Import ListNotations.

Open Scope string_scope.
Open Scope list_scope.
Open Scope Z_scope.

(** ** Values of the store and of the platform *)

(** A value as SQLite keeps it in a column (storage classes NULL, INTEGER,
    REAL and TEXT; the service never binds a BLOB).  A REAL is carried as the
    64 bits of its IEEE-754 encoding. *)
Inductive sqlval : Type :=
| SqlNull
| SqlInteger (i : Z)
| SqlReal (ieee754 : Z)
| SqlText (s : string).

(** What the handlers take from the JavaScript platform and from SQLite
    without defining it themselves:
    - [json], the values [express.json()] parses a body field into, and
      [JSON_stringify], the builtin [JSON.stringify] on them;
    - [path_extname], Node's [path.extname];
    - [integer_affinity], the conversion SQLite applies to a bound TEXT
      value that meets a column of INTEGER affinity (a well-formed numeral
      becomes an INTEGER or a REAL, other text stays TEXT). *)
Class Runtime : Type := {
  json : Type;
  JSON_stringify : json -> string;
  path_extname : string -> string;
  integer_affinity : string -> sqlval
}.

(** The environment variables the process reads. *)
Record config : Type := {
  env_BACKEND_URL : option string;
  env_PORT : option string
}.

(** [process.env.BACKEND_URL || 'https://velan-grocery-shop-backend.onrender.com']:
    an unset or empty variable is falsy. *)
Definition BACKEND_URL (cfg : config) : string :=
  match env_BACKEND_URL cfg with
  | Some url => if (url =? "")%string
                then "https://velan-grocery-shop-backend.onrender.com"
                else url
  | None => "https://velan-grocery-shop-backend.onrender.com"
  end.

(** A JavaScript integer number turned into a string by [+] with a string
    operand: its decimal digits. *)
Definition number_to_string (n : Z) : string :=
  NilZero.string_of_int (Z.to_int n).

(** ** The tables

    A TEXT column that the service fills from a string or leaves NULL is an
    [option string]. *)

(** [categories (id INTEGER PRIMARY KEY AUTOINCREMENT, name TEXT UNIQUE, image TEXT)] *)
Record category_row : Type := {
  cat_id : Z;
  cat_name : option string;
  cat_image : option string
}.

(** [products (id INTEGER PRIMARY KEY AUTOINCREMENT, name TEXT, description TEXT,
    price INTEGER, image TEXT, category TEXT)] *)
Record product_row : Type := {
  prod_id : Z;
  prod_name : option string;
  prod_description : option string;
  prod_price : sqlval;
  prod_image : option string;
  prod_category : option string
}.

(** [orders (id INTEGER PRIMARY KEY AUTOINCREMENT, items TEXT, details TEXT,
    created_at TIMESTAMP DEFAULT CURRENT_TIMESTAMP)].  [created_at] is the
    'YYYY-MM-DD HH:MM:SS' text of CURRENT_TIMESTAMP, kept here as the count of
    whole seconds it denotes: the text has fixed width, so comparing two of
    them compares the counts. *)
Record order_row : Type := {
  ord_id : Z;
  ord_items : option string;
  ord_details : option string;
  ord_created_at : Z
}.

(** [status (key TEXT PRIMARY KEY, value TEXT)] *)
Record status_row : Type := {
  st_key : string;
  st_value : option string
}.

(** The database file [grocery.sqlite] and the [uploads/] directory.  Each
    table lists its rows in rowid order, the order of a table scan; the
    [_seq] fields are the table's entry of [sqlite_sequence], the largest
    rowid AUTOINCREMENT has handed out.  [uploads] maps a file name to the
    file's content. *)
Record store : Type := {
  categories : list category_row;
  categories_seq : Z;
  products : list product_row;
  products_seq : Z;
  orders : list order_row;
  orders_seq : Z;
  status : list status_row;
  uploads : list (string * string)
}.

(** The store after the CREATE TABLE IF NOT EXISTS statements on a fresh file. *)
Definition empty_store : store :=
  {| categories := []; categories_seq := 0;
     products := []; products_seq := 0;
     orders := []; orders_seq := 0;
     status := []; uploads := [] |}.

Definition set_categories (st : store) (rows : list category_row) (seq : Z) : store :=
  {| categories := rows; categories_seq := seq;
     products := products st; products_seq := products_seq st;
     orders := orders st; orders_seq := orders_seq st;
     status := status st; uploads := uploads st |}.

Definition set_products (st : store) (rows : list product_row) (seq : Z) : store :=
  {| categories := categories st; categories_seq := categories_seq st;
     products := rows; products_seq := seq;
     orders := orders st; orders_seq := orders_seq st;
     status := status st; uploads := uploads st |}.

Definition set_orders (st : store) (rows : list order_row) (seq : Z) : store :=
  {| categories := categories st; categories_seq := categories_seq st;
     products := products st; products_seq := products_seq st;
     orders := rows; orders_seq := seq;
     status := status st; uploads := uploads st |}.

Definition set_status (st : store) (rows : list status_row) : store :=
  {| categories := categories st; categories_seq := categories_seq st;
     products := products st; products_seq := products_seq st;
     orders := orders st; orders_seq := orders_seq st;
     status := rows; uploads := uploads st |}.

Definition set_uploads (st : store) (files : list (string * string)) : store :=
  {| categories := categories st; categories_seq := categories_seq st;
     products := products st; products_seq := products_seq st;
     orders := orders st; orders_seq := orders_seq st;
     status := status st; uploads := files |}.

(** ** SQLite: rowids, comparisons, results *)

(** What the callback of [db.run], [db.all] or [db.get] receives: a result,
    or an [err] with its message. *)
Inductive dbresult (A : Type) : Type :=
| DbOk (a : A)
| DbErr (message : string).
Arguments DbOk {A} a.
Arguments DbErr {A} message.

(** The largest rowid, 2^63 - 1. *)
Definition MAX_ROWID : Z := 9223372036854775807.

Definition max_rowid (ids : list Z) : Z := fold_right Z.max 0 ids.

(** The rowid AUTOINCREMENT assigns: one more than the largest rowid the
    table has ever held, SQLITE_FULL once that is the largest rowid there is. *)
Definition autoincrement (seq : Z) (ids : list Z) : dbresult Z :=
  let top := Z.max seq (max_rowid ids) in
  if MAX_ROWID <=? top
  then DbErr "SQLITE_FULL: database or disk is full"
  else DbOk (top + 1).

(** The table can still take a row: its largest rowid so far is below the
    largest rowid there is. *)
Definition rowids_left (seq : Z) (ids : list Z) : Prop :=
  Z.max seq (max_rowid ids) < MAX_ROWID.

(** [column = ?] for a TEXT column and a bound string: NULL equals nothing,
    text is compared byte by byte (the BINARY collation). *)
Definition text_column_eq (column : option string) (param : string) : bool :=
  match column with
  | Some s => (s =? param)%string
  | None => false
  end.

(** [id = ?] for the INTEGER PRIMARY KEY and a bound string: the string is
    given the column's affinity and then compared. *)
Definition id_column_eq {RT : Runtime} (id : Z) (param : string) : bool :=
  match integer_affinity param with
  | SqlInteger i => id =? i
  | _ => false
  end.

(** A bound string or [undefined] stored in the INTEGER column [price]. *)
Definition price_cell {RT : Runtime} (price : option string) : sqlval :=
  match price with
  | Some s => integer_affinity s
  | None => SqlNull
  end.

(** An integer as a JavaScript number, an IEEE-754 double: itself while
    its magnitude is below 2^53, above that the nearest integer with a
    significand of 53 bits, a tie going to the even significand. *)
Definition round_to_double (z : Z) : Z :=
  let a := Z.abs z in
  if a <? 2 ^ 53 then z
  else
    let e := Z.log2 a - 52 in
    let q := a / 2 ^ e in
    let r := a mod 2 ^ e in
    let half := 2 ^ (e - 1) in
    let q' := if (half <? r) || ((r =? half) && Z.odd q) then q + 1 else q in
    Z.sgn z * (q' * 2 ^ e).

(** [this.lastID] in the callback of [db.run]: the rowid of the inserted
    row, handed to JavaScript as a number. *)
Definition lastID (rowid : Z) : Z := round_to_double rowid.

(** The new rowid of the table is a JavaScript number as it is: the
    largest rowid so far is below 2^53. *)
Definition rowids_exact (seq : Z) (ids : list Z) : Prop :=
  Z.max seq (max_rowid ids) < 2 ^ 53.

(** CURRENT_TIMESTAMP at a clock reading in milliseconds: whole seconds. *)
Definition CURRENT_TIMESTAMP (now : Z) : Z := now / 1000.

(** ** Requests and responses *)

(** The file of a multipart form under the field [image]. *)
Record file_part : Type := {
  originalname : string;
  file_content : string
}.

(** What [res.json] and the static middleware send.  An id of a created
    row is the JavaScript number the handler holds; a list of rows stands
    for the rows the statement returned, whose INTEGER cells the driver
    hands over as JavaScript numbers as well. *)
Inductive body : Type :=
| JsonError (error : string)                              (* { error } *)
| JsonFailure (error : string)                            (* { success: false, error } *)
| JsonSuccess                                             (* { success: true } *)
| JsonCategories (rows : list category_row)
| JsonCategoryCreated (id : Z) (image : option string)    (* { success: true, id, image } *)
| JsonCategoryId (id : Z)                                 (* { success: true, id } *)
| JsonProducts (rows : list product_row)
| JsonProductCreated (productId : Z) (image : option string)
| JsonProductId (productId : Z)                           (* { success: true, productId } *)
| JsonOrders (rows : list order_row)
| JsonOrderCreated (orderId : Z)                          (* { success: true, orderId } *)
| JsonStatus (status : option string)                     (* { status } *)
| JsonHealth (time : Z)                                   (* { ok: true, msg, time } *)
| FileBody (content : string)
| NotFound.

Record response : Type := {
  res_status : Z;
  res_body : body
}.

(** [res.json(b)]: the status stays 200. *)
Definition res_json (b : body) : response :=
  {| res_status := 200; res_body := b |}.

(** [res.status(code).json(b)] *)
Definition res_status_json (code : Z) (b : body) : response :=
  {| res_status := code; res_body := b |}.

Section Service.

Context {RT : Runtime}.
Variable cfg : config.

(** One constructor per route the application registers, with what the
    handler reads from the request: form fields and route parameters are
    strings, a field that is not sent is [None] ([undefined]); the [status]
    field of the JSON body is free text, [None] when it is null or left out
    (either is bound as NULL). *)
Inductive request : Type :=
| GET_categories
| POST_categories (name : option string) (image : option file_part)
| DELETE_categories_id (id : string)
| DELETE_categories_by_name (name : string)
| GET_products (category : option string)
| POST_products (name description price category : option string)
                (image : option file_part)
| DELETE_products_id (id : string)
| DELETE_products_by_name (name : string)
| GET_orders
| POST_orders (items details : option json)
| GET_status_leave
| POST_status_leave (status : option string)
| GET_root
| GET_uploads (file : string).

(** *** The statements *)

(** [SELECT * FROM categories] *)
Definition select_categories (st : store) : dbresult (list category_row) :=
  DbOk (categories st).

(** The UNIQUE index on [categories.name]: a NULL name collides with nothing. *)
Definition name_taken (name : option string) (rows : list category_row) : bool :=
  match name with
  | Some n => existsb (fun r => text_column_eq (cat_name r) n) rows
  | None => false
  end.

(** [INSERT INTO categories (name, image) VALUES (?, ?)]; the result carries
    the rowid of the new row. *)
Definition insert_category (st : store) (name image : option string)
  : dbresult (store * Z) :=
  match autoincrement (categories_seq st) (map cat_id (categories st)) with
  | DbErr m => DbErr m
  | DbOk id =>
      if name_taken name (categories st)
      then DbErr "SQLITE_CONSTRAINT: UNIQUE constraint failed: categories.name"
      else DbOk (set_categories st
                   (categories st ++
                      [{| cat_id := id; cat_name := name; cat_image := image |}])
                   id, id)
  end.

(** [DELETE FROM categories WHERE id=?] *)
Definition delete_category_by_id (st : store) (id : string) : dbresult store :=
  DbOk (set_categories st
          (filter (fun r => negb (id_column_eq (cat_id r) id)) (categories st))
          (categories_seq st)).

(** [DELETE FROM categories WHERE name=?] *)
Definition delete_category_by_name (st : store) (name : string) : dbresult store :=
  DbOk (set_categories st
          (filter (fun r => negb (text_column_eq (cat_name r) name)) (categories st))
          (categories_seq st)).

(** [SELECT * FROM products] *)
Definition select_products (st : store) : dbresult (list product_row) :=
  DbOk (products st).

(** [SELECT * FROM products WHERE category = ?] *)
Definition select_products_where_category (st : store) (category : string)
  : dbresult (list product_row) :=
  DbOk (filter (fun r => text_column_eq (prod_category r) category) (products st)).

(** [INSERT INTO products (name, description, price, image, category)
    VALUES (?, ?, ?, ?, ?)] *)
Definition insert_product (st : store)
    (name description price image category : option string)
  : dbresult (store * Z) :=
  match autoincrement (products_seq st) (map prod_id (products st)) with
  | DbErr m => DbErr m
  | DbOk id =>
      DbOk (set_products st
              (products st ++
                 [{| prod_id := id; prod_name := name;
                     prod_description := description;
                     prod_price := price_cell price;
                     prod_image := image; prod_category := category |}])
              id, id)
  end.

(** [DELETE FROM products WHERE id=?] *)
Definition delete_product_by_id (st : store) (id : string) : dbresult store :=
  DbOk (set_products st
          (filter (fun r => negb (id_column_eq (prod_id r) id)) (products st))
          (products_seq st)).

(** [DELETE FROM products WHERE name=?] *)
Definition delete_product_by_name (st : store) (name : string) : dbresult store :=
  DbOk (set_products st
          (filter (fun r => negb (text_column_eq (prod_name r) name)) (products st))
          (products_seq st)).

(** ORDER BY created_at ASC.  SQLite feeds the rows of the scan to its
    sorter, which keeps rows of equal key in the order it received them; the
    outcome is the stable sort of the scan, computed here by insertion from
    the right. *)
Fixpoint insert_by_created_at (r : order_row) (sorted : list order_row)
  : list order_row :=
  match sorted with
  | [] => [r]
  | x :: rest =>
      if ord_created_at r <=? ord_created_at x
      then r :: sorted
      else x :: insert_by_created_at r rest
  end.

Definition order_by_created_at (rows : list order_row) : list order_row :=
  fold_right insert_by_created_at [] rows.

(** [SELECT * FROM orders ORDER BY created_at ASC] *)
Definition select_orders (st : store) : dbresult (list order_row) :=
  DbOk (order_by_created_at (orders st)).

(** [INSERT INTO orders (items, details) VALUES (?, ?)] at clock reading
    [now]; [created_at] takes its default. *)
Definition insert_order (st : store) (items details : option string) (now : Z)
  : dbresult (store * Z) :=
  match autoincrement (orders_seq st) (map ord_id (orders st)) with
  | DbErr m => DbErr m
  | DbOk id =>
      DbOk (set_orders st
              (orders st ++
                 [{| ord_id := id; ord_items := items; ord_details := details;
                     ord_created_at := CURRENT_TIMESTAMP now |}])
              id, id)
  end.

(** [SELECT value FROM status WHERE key=?] through [db.get]: the first row,
    or [undefined]. *)
Definition select_status_value (st : store) (key : string)
  : dbresult (option (option string)) :=
  DbOk (option_map st_value
          (find (fun r => (st_key r =? key)%string) (status st))).

(** [DO UPDATE SET value=?] where the key 'leave' is in conflict with the
    row. *)
Definition overwrite (value : option string) (r : status_row) : status_row :=
  if (st_key r =? "leave")%string
  then {| st_key := st_key r; st_value := value |}
  else r.

(** [INSERT INTO status (key, value) VALUES ('leave', ?)
    ON CONFLICT(key) DO UPDATE SET value=?], both parameters bound to [value]. *)
Definition upsert_status_leave (st : store) (value : option string)
  : dbresult store :=
  if existsb (fun r => (st_key r =? "leave")%string) (status st)
  then DbOk (set_status st (map (overwrite value) (status st)))
  else DbOk (set_status st
               (status st ++ [{| st_key := "leave"; st_value := value |}])).

(** *** The upload middleware *)

(** [filename: (req, file, cb) => cb(null, Date.now() + path.extname(file.originalname))] *)
Definition multer_filename (now : Z) (file : file_part) : string :=
  (number_to_string now ++ path_extname (originalname file))%string.

(** Writing a file of [uploads/]: a file of that name is replaced. *)
Fixpoint write_file (files : list (string * string)) (name content : string)
  : list (string * string) :=
  match files with
  | [] => [(name, content)]
  | (n, c) :: rest =>
      if (n =? name)%string
      then (name, content) :: rest
      else (n, c) :: write_file rest name content
  end.

(** [upload.single('image')]: stores the file, if the form has one, and
    leaves its generated name in [req.file.filename]. *)
Definition upload_single (now : Z) (st : store) (image : option file_part)
  : store * option string :=
  match image with
  | Some file =>
      let filename := multer_filename now file in
      (set_uploads st (write_file (uploads st) filename (file_content file)),
       Some filename)
  | None => (st, None)
  end.

(** [req.file ? `${BACKEND_URL}/uploads/${req.file.filename}` : null] *)
Definition image_url (req_file : option string) : option string :=
  match req_file with
  | Some filename => Some (BACKEND_URL cfg ++ "/uploads/" ++ filename)%string
  | None => None
  end.

(** *** The handlers

    Each takes the store and answers with the store it leaves and the
    response it sends; [now] is the reading of the server's clock in
    milliseconds where the request is served. *)

(** [app.get('/categories', ...)] *)
Definition get_categories (st : store) : store * response :=
  match select_categories st with
  | DbErr m => (st, res_status_json 500 (JsonError m))
  | DbOk rows => (st, res_json (JsonCategories rows))
  end.

(** [app.post('/categories', upload.single('image'), ...)] *)
Definition post_categories (now : Z) (st : store)
    (name : option string) (image : option file_part) : store * response :=
  let (st1, req_file) := upload_single now st image in
  let image := image_url req_file in
  match insert_category st1 name image with
  | DbErr m => (st1, res_json (JsonFailure m))
  | DbOk (st2, rowid) => (st2, res_json (JsonCategoryCreated (lastID rowid) image))
  end.

(** [app.delete('/categories/:id', ...)] *)
Definition delete_categories_id (st : store) (id : string) : store * response :=
  match delete_category_by_id st id with
  | DbErr m => (st, res_status_json 500 (JsonError m))
  | DbOk st1 => (st1, res_json JsonSuccess)
  end.

(** [app.delete('/categories/by-name/:name', ...)] *)
Definition delete_categories_by_name (st : store) (name : string)
  : store * response :=
  match delete_category_by_name st name with
  | DbErr m => (st, res_status_json 500 (JsonError m))
  | DbOk st1 => (st1, res_json JsonSuccess)
  end.

(** A string as a condition: the empty string is falsy. *)
Definition truthy (s : string) : bool := negb (s =? "")%string.

(** [app.get('/products', ...)]: [if (category)] on [req.query.category],
    which is [undefined] when the query has no such parameter. *)
Definition get_products (st : store) (category : option string)
  : store * response :=
  let result :=
    match category with
    | Some c => if truthy c
                then select_products_where_category st c
                else select_products st
    | None => select_products st
    end in
  match result with
  | DbErr m => (st, res_status_json 500 (JsonError m))
  | DbOk rows => (st, res_json (JsonProducts rows))
  end.

(** [app.post('/products', upload.single('image'), ...)] *)
Definition post_products (now : Z) (st : store)
    (name description price category : option string)
    (image : option file_part) : store * response :=
  let (st1, req_file) := upload_single now st image in
  let image := image_url req_file in
  match insert_product st1 name description price image category with
  | DbErr m => (st1, res_json (JsonFailure m))
  | DbOk (st2, rowid) => (st2, res_json (JsonProductCreated (lastID rowid) image))
  end.

(** [app.delete('/products/:id', ...)] *)
Definition delete_products_id (st : store) (id : string) : store * response :=
  match delete_product_by_id st id with
  | DbErr m => (st, res_status_json 500 (JsonError m))
  | DbOk st1 => (st1, res_json JsonSuccess)
  end.

(** [app.delete('/products/by-name/:name', ...)] *)
Definition delete_products_by_name (st : store) (name : string)
  : store * response :=
  match delete_product_by_name st name with
  | DbErr m => (st, res_status_json 500 (JsonError m))
  | DbOk st1 => (st1, res_json JsonSuccess)
  end.

(** [app.get('/orders', ...)] *)
Definition get_orders (st : store) : store * response :=
  match select_orders st with
  | DbErr m => (st, res_status_json 500 (JsonError m))
  | DbOk rows => (st, res_json (JsonOrders rows))
  end.

(** [app.post('/orders', ...)]: [JSON.stringify] of a field that is not
    sent is [undefined], bound as NULL. *)
Definition post_orders (now : Z) (st : store) (items details : option json)
  : store * response :=
  match insert_order st (option_map JSON_stringify items)
                        (option_map JSON_stringify details) now with
  | DbErr m => (st, res_status_json 500 (JsonError m))
  | DbOk (st1, rowid) => (st1, res_json (JsonOrderCreated (lastID rowid)))
  end.

(** [app.get('/status/leave', ...)] *)
Definition get_status_leave (st : store) : store * response :=
  match select_status_value st "leave" with
  | DbErr m => (st, res_status_json 500 (JsonError m))
  | DbOk row =>
      (st, res_json (JsonStatus match row with
                                | Some value => value
                                | None => Some "none"
                                end))
  end.

(** [app.post('/status/leave', ...)] *)
Definition post_status_leave (st : store) (status : option string)
  : store * response :=
  match upsert_status_leave st status with
  | DbErr m => (st, res_status_json 500 (JsonError m))
  | DbOk st1 => (st1, res_json JsonSuccess)
  end.

(** [app.get('/', ...)] *)
Definition get_root (now : Z) (st : store) : store * response :=
  (st, res_json (JsonHealth now)).

(** [app.use('/uploads', express.static(...))] on a file name of the
    directory. *)
Definition get_uploads (st : store) (file : string) : store * response :=
  match find (fun f => (fst f =? file)%string) (uploads st) with
  | Some f => (st, {| res_status := 200; res_body := FileBody (snd f) |})
  | None => (st, res_status_json 404 NotFound)
  end.

(** The application: the request goes to the handler of its route. *)
Definition handle (now : Z) (st : store) (req : request) : store * response :=
  match req with
  | GET_categories => get_categories st
  | POST_categories name image => post_categories now st name image
  | DELETE_categories_id id => delete_categories_id st id
  | DELETE_categories_by_name name => delete_categories_by_name st name
  | GET_products category => get_products st category
  | POST_products name description price category image =>
      post_products now st name description price category image
  | DELETE_products_id id => delete_products_id st id
  | DELETE_products_by_name name => delete_products_by_name st name
  | GET_orders => get_orders st
  | POST_orders items details => post_orders now st items details
  | GET_status_leave => get_status_leave st
  | POST_status_leave status => post_status_leave st status
  | GET_root => get_root now st
  | GET_uploads file => get_uploads st file
  end.

(** The service run over a list of requests, each with the clock reading at
    which it is served; the responses are dropped. *)
Fixpoint run (st : store) (reqs : list (Z * request)) : store :=
  match reqs with
  | [] => st
  | (now, req) :: rest => run (fst (handle now st req)) rest
  end.

(** The stores the service can be in: [empty_store] and what requests make
    of it. *)
Inductive reachable : store -> Prop :=
| reachable_empty : reachable empty_store
| reachable_step now st req :
    reachable st -> reachable (fst (handle now st req)).

End Service.

Arguments request {RT}.

(** ** The earlier server file

    The repository holds a second, earlier copy of the server
    ([src/unnamed/part_000]).  It creates the same tables and registers the
    same routes but the health check; its two upload handlers store the image
    as a path without the base URL and leave the image out of the response.
    The other handlers are those of [server.js], statement for statement. *)
Module Part000.

Section Service.

Context {RT : Runtime}.

(** [req.file ? `/uploads/${req.file.filename}` : null] *)
Definition image_url (req_file : option string) : option string :=
  match req_file with
  | Some filename => Some ("/uploads/" ++ filename)%string
  | None => None
  end.

(** [app.post('/categories', upload.single('image'), ...)] *)
Definition post_categories (now : Z) (st : store)
    (name : option string) (image : option file_part) : store * response :=
  let (st1, req_file) := upload_single now st image in
  let image := image_url req_file in
  match insert_category st1 name image with
  | DbErr m => (st1, res_json (JsonFailure m))
  | DbOk (st2, rowid) => (st2, res_json (JsonCategoryId (lastID rowid)))
  end.

(** [app.post('/products', upload.single('image'), ...)] *)
Definition post_products (now : Z) (st : store)
    (name description price category : option string)
    (image : option file_part) : store * response :=
  let (st1, req_file) := upload_single now st image in
  let image := image_url req_file in
  match insert_product st1 name description price image category with
  | DbErr m => (st1, res_json (JsonFailure m))
  | DbOk (st2, rowid) => (st2, res_json (JsonProductId (lastID rowid)))
  end.

(** The application of the earlier file; it has no route for [/]. *)
Definition handle (now : Z) (st : store) (req : request) : store * response :=
  match req with
  | GET_categories => get_categories st
  | POST_categories name image => post_categories now st name image
  | DELETE_categories_id id => delete_categories_id st id
  | DELETE_categories_by_name name => delete_categories_by_name st name
  | GET_products category => get_products st category
  | POST_products name description price category image =>
      post_products now st name description price category image
  | DELETE_products_id id => delete_products_id st id
  | DELETE_products_by_name name => delete_products_by_name st name
  | GET_orders => get_orders st
  | POST_orders items details => post_orders now st items details
  | GET_status_leave => get_status_leave st
  | POST_status_leave status => post_status_leave st status
  | GET_root => (st, res_status_json 404 NotFound)
  | GET_uploads file => get_uploads st file
  end.

(** The earlier application run over a list of requests. *)
Fixpoint run (st : store) (reqs : list (Z * request)) : store :=
  match reqs with
  | [] => st
  | (now, req) :: rest => run (fst (handle now st req)) rest
  end.

End Service.

End Part000.

(** A category row and a product row with the image column blanked, and a
    store with the image column of both tables blanked. *)
Definition without_category_image (r : category_row) : category_row :=
  {| cat_id := cat_id r; cat_name := cat_name r; cat_image := None |}.

Definition without_product_image (r : product_row) : product_row :=
  {| prod_id := prod_id r; prod_name := prod_name r;
     prod_description := prod_description r; prod_price := prod_price r;
     prod_image := None; prod_category := prod_category r |}.

Definition without_images (st : store) : store :=
  {| categories := map without_category_image (categories st);
     categories_seq := categories_seq st;
     products := map without_product_image (products st);
     products_seq := products_seq st;
     orders := orders st; orders_seq := orders_seq st;
     status := status st; uploads := uploads st |}.

(** ** What the schema promises *)

(** The rows of the status table under the key "leave". *)
Definition leave_rows (rows : list status_row) : list status_row :=
  filter (fun r => (st_key r =? "leave")%string) rows.

(** The names the UNIQUE index of the categories table holds: those that
    are not NULL. *)
Definition category_names (rows : list category_row) : list string :=
  flat_map (fun r => match cat_name r with Some n => [n] | None => [] end) rows.

(** A list of rowids as a table keeps it: ascending without repeats, within
    what AUTOINCREMENT has handed out. *)
Definition rowids_ok (seq : Z) (ids : list Z) : Prop :=
  StronglySorted Z.lt ids /\ Forall (fun i => 0 < i <= seq) ids.

(** The constraints of the four CREATE TABLE statements: the INTEGER PRIMARY
    KEY AUTOINCREMENT of categories, products and orders, the UNIQUE name of
    a category, and the PRIMARY KEY of the status table. *)
Record wf_store (st : store) : Prop := {
  wf_category_ids : rowids_ok (categories_seq st) (map cat_id (categories st));
  wf_category_names : NoDup (category_names (categories st));
  wf_product_ids : rowids_ok (products_seq st) (map prod_id (products st));
  wf_order_ids : rowids_ok (orders_seq st) (map ord_id (orders st));
  wf_status_keys : NoDup (map st_key (status st))
}.



(** The order of ORDER BY created_at ASC: [x] was not created after [y]. *)
Definition created_le (x y : order_row) : Prop :=
  ord_created_at x <= ord_created_at y.

(** [sub] can be had from a list by dropping elements of it. *)
Inductive Subsequence {A : Type} : list A -> list A -> Prop :=
| Subsequence_nil : Subsequence [] []
| Subsequence_keep x sub l : Subsequence sub l -> Subsequence (x :: sub) (x :: l)
| Subsequence_drop x sub l : Subsequence sub l -> Subsequence sub (x :: l).

(** The image of a row is null or the URL of a file that is in the uploads
    directory. *)
Definition image_on_file (cfg : config) (files : list (string * string))
    (image : option string) : Prop :=
  match image with
  | Some url =>
      exists filename,
        url = (BACKEND_URL cfg ++ "/uploads/" ++ filename)%string
        /\ In filename (map fst files)
  | None => True
  end.

(** ** A runtime for worked examples

    JSON values that are integer numbers, file names without directories,
    and SQLite's reading of a decimal numeral. *)

Definition is_digit (c : ascii) : bool :=
  let n := Z.of_nat (nat_of_ascii c) in (48 <=? n) && (n <=? 57).

Definition is_space (c : ascii) : bool :=
  let n := Z.of_nat (nat_of_ascii c) in (n =? 32) || ((9 <=? n) && (n <=? 13)).

Fixpoint skip_spaces (s : string) : string :=
  match s with
  | String c rest => if is_space c then skip_spaces rest else s
  | EmptyString => s
  end.

(** The digits at the front of [s]: their value on top of [acc], how many
    they are on top of [count], and what follows them. *)
Fixpoint read_digits (acc count : Z) (s : string) : Z * Z * string :=
  match s with
  | String c rest =>
      if is_digit c
      then read_digits (10 * acc + (Z.of_nat (nat_of_ascii c) - 48)) (count + 1) rest
      else (acc, count, s)
  | EmptyString => (acc, count, s)
  end.

Definition read_sign (s : string) : bool * string :=
  match s with
  | String c rest =>
      if (c =? "-")%char then (true, rest)
      else if (c =? "+")%char then (false, rest)
      else (false, s)
  | EmptyString => (false, s)
  end.

(** A numeral between optional blanks: a sign, digits with or without a
    decimal point, and an exponent.  The result is the sign, the digits
    read as one integer [n], the power of ten [x] to scale it by (the
    numeral denotes [n * 10^x]), and whether the numeral is more than plain
    digits. *)
Definition read_numeral (s : string) : option (bool * Z * Z * bool) :=
  let (negative, s1) := read_sign (skip_spaces s) in
  let '(n1, c1, s2) := read_digits 0 0 s1 in
  let '(n2, c2, point, s3) :=
    match s2 with
    | String c rest =>
        if (c =? ".")%char
        then let '(n, k, r) := read_digits n1 0 rest in (n, k, true, r)
        else (n1, 0, false, s2)
    | EmptyString => (n1, 0, false, s2)
    end in
  let '(x, exponent, valid, s4) :=
    match s3 with
    | String c rest =>
        if ((c =? "e") || (c =? "E"))%char
        then let (minus, r1) := read_sign rest in
             let '(e, k, r2) := read_digits 0 0 r1 in
             (if minus then - e else e, true, 0 <? k, r2)
        else (0, false, true, s3)
    | EmptyString => (0, false, true, s3)
    end in
  match skip_spaces s4 with
  | EmptyString =>
      if (0 <? c1 + c2) && valid
      then Some (negative, n2, x - c2, point || exponent)
      else None
  | String _ _ => None
  end.

(** The double nearest to [p / q] for [0 <= p] and [0 < q], a tie going to
    the even significand: significand [m] below 2^53 and exponent [e] with
    value [m * 2^e]. *)
Definition nearest_double (p q : Z) : Z * Z :=
  if p =? 0 then (0, -1074)
  else
    let l := Z.log2 p - Z.log2 q in
    let l := if p * 2 ^ Z.max 0 (- l) <? q * 2 ^ Z.max 0 l then l - 1 else l in
    let e := Z.max (l - 52) (-1074) in
    let num := p * 2 ^ Z.max 0 (- e) in
    let den := q * 2 ^ Z.max 0 e in
    let m := num / den in
    let r := num mod den in
    let m := if (den <? 2 * r) || ((2 * r =? den) && Z.odd m) then m + 1 else m in
    if m =? 2 ^ 53 then (2 ^ 52, e + 1) else (m, e).

(** The 64 bits of the double [m * 2^e]. *)
Definition ieee754_bits (negative : bool) (m e : Z) : Z :=
  (if negative then 2 ^ 63 else 0)
  + (if m <? 2 ^ 52 then m
     else if 971 <? e then 2047 * 2 ^ 52
     else (e + 1075) * 2 ^ 52 + (m - 2 ^ 52)).

(** INTEGER affinity applied to bound text, as SQLite does it: text that is
    not a numeral stays TEXT; plain digits within 64 bits become that
    INTEGER; any other numeral is read as a REAL, which becomes an INTEGER
    again when it is a whole number strictly inside the 64-bit range. *)
Definition decimal_affinity (s : string) : sqlval :=
  match read_numeral s with
  | None => SqlText s
  | Some (negative, n, x, real) =>
      let v := if negative then - n else n in
      if negb real && (- 2 ^ 63 <=? v) && (v <? 2 ^ 63) then SqlInteger v
      else
        let (m, e) := nearest_double (n * 10 ^ Z.max 0 x) (10 ^ Z.max 0 (- x)) in
        let whole := (0 <=? e) || (m mod 2 ^ (- e) =? 0) in
        let i := if 0 <=? e then m * 2 ^ e else m / 2 ^ (- e) in
        let i := if negative then - i else i in
        if whole && (- 2 ^ 63 <? i) && (i <? 2 ^ 63 - 1)
        then SqlInteger i
        else SqlReal (ieee754_bits negative m e)
  end.

(** The suffix of a file name from its last dot on, empty when the name has
    no dot after its first character. *)
Fixpoint suffix_from_last_dot (s : string) : option string :=
  match s with
  | EmptyString => None
  | String c rest =>
      match suffix_from_last_dot rest with
      | Some ext => Some ext
      | None => if (c =? ".")%char then Some s else None
      end
  end.

Definition basename_extname (s : string) : string :=
  match s with
  | EmptyString => ""
  | String _ rest =>
      match suffix_from_last_dot rest with
      | Some ext => ext
      | None => ""
      end
  end.

Definition example_runtime : Runtime := {|
  json := Z;
  JSON_stringify := number_to_string;
  path_extname := basename_extname;
  integer_affinity := decimal_affinity
|}.

Definition example_config : config :=
  {| env_BACKEND_URL := Some "http://localhost:5000"; env_PORT := None |}.

(** A store with two categories, three products and no status row. *)
Definition example_store : store :=
  {| categories :=
       [ {| cat_id := 1; cat_name := Some "Dairy"; cat_image := None |};
         {| cat_id := 4; cat_name := Some "Fruits";
            cat_image := Some "http://localhost:5000/uploads/1700000000000.png" |} ];
     categories_seq := 6;
     products :=
       [ {| prod_id := 1; prod_name := Some "Milk"; prod_description := None;
            prod_price := SqlInteger 30; prod_image := None;
            prod_category := Some "Dairy" |};
         {| prod_id := 2; prod_name := Some "Curd"; prod_description := Some "fresh";
            prod_price := SqlInteger 25; prod_image := None;
            prod_category := Some "dairy" |};
         {| prod_id := 5; prod_name := Some "Apple"; prod_description := None;
            prod_price := SqlText "n/a"; prod_image := None;
            prod_category := None |} ];
     products_seq := 5;
     orders := [];
     orders_seq := 0;
     status := [];
     uploads := [("1700000000000.png", "png bytes")] |}.

(** The example store with two orders on file, rowids 2 and 7, the second
    stamped in the year 2027. *)
Definition example_orders_store : store :=
  set_orders example_store
    [ {| ord_id := 2; ord_items := Some "1"; ord_details := Some "2";
         ord_created_at := 1700000000 |};
      {| ord_id := 7; ord_items := Some "3"; ord_details := None;
         ord_created_at := 1800000000 |} ]
    9.

(** Three orders placed on it: the first two within one second, with a read
    in between. *)
Definition example_after_A : store :=
  fst (handle (RT := example_runtime) example_config 1700000100100
         example_orders_store
         (POST_orders (RT := example_runtime) (Some 11) (Some 1))).

Definition example_after_B : store :=
  fst (handle (RT := example_runtime) example_config 1700000100900
         (run (RT := example_runtime) example_config example_after_A
              [(1700000100500, GET_orders)])
         (POST_orders (RT := example_runtime) (Some 22) (Some 2))).

Definition example_after_C : store :=
  fst (handle (RT := example_runtime) example_config 1700000103000
         (run (RT := example_runtime) example_config example_after_B [])
         (POST_orders (RT := example_runtime) (Some 33) None)).

(** A store whose orders table has handed out the last rowid there is. *)
Definition example_full_store : store :=
  set_orders example_store [] MAX_ROWID.

(** A store whose orders table has handed out the rowid 2^53. *)
Definition example_large_store : store :=
  set_orders example_store [] 9007199254740992.

(** ** Properties *)

(** *** The upload middleware leaves the tables alone *)

Section UploadFrame.

Context {RT : Runtime}.
Variables (now : Z) (st : store) (image : option file_part).

Lemma upload_single_categories :
  categories (fst (upload_single now st image)) = categories st
  /\ categories_seq (fst (upload_single now st image)) = categories_seq st.
Proof. destruct image; split; reflexivity. Qed.

Lemma upload_single_products :
  products (fst (upload_single now st image)) = products st
  /\ products_seq (fst (upload_single now st image)) = products_seq st.
Proof. destruct image; split; reflexivity. Qed.

Lemma upload_single_orders :
  orders (fst (upload_single now st image)) = orders st
  /\ orders_seq (fst (upload_single now st image)) = orders_seq st.
Proof. destruct image; split; reflexivity. Qed.

Lemma upload_single_status :
  status (fst (upload_single now st image)) = status st.
Proof. destruct image; reflexivity. Qed.

Lemma upload_single_filename :
  snd (upload_single now st image) = option_map (multer_filename now) image.
Proof. destruct image; reflexivity. Qed.

End UploadFrame.

(** *** Categories *)

Lemma name_taken_In {RT : Runtime} (N : string) (row : category_row)
    (rows : list category_row) :
  In row rows -> cat_name row = Some N -> name_taken (Some N) rows = true.
Proof.
  intros Hin Hname. simpl. apply existsb_exists. exists row. split; [exact Hin|].
  unfold text_column_eq. rewrite Hname. apply String.eqb_refl.
Qed.

(** An INSERT the store refuses leaves the store as it was; here, for the
    categories table, whenever the name is already there. *)
Lemma insert_category_duplicate {RT : Runtime} (st : store) (N : string)
    (row : category_row) (image : option string) :
  In row (categories st) -> cat_name row = Some N ->
  exists error, insert_category st (Some N) image = DbErr error.
Proof.
  intros Hin Hname. unfold insert_category.
  destruct (autoincrement _ _) as [id|m]; [|eauto].
  rewrite (name_taken_In N row _ Hin Hname). eauto.
Qed.

(** C1.  When the categories table holds a row named [N], POST /categories
    with the name [N] (with or without an image) is answered with status 200
    and a body [{success: false, error}], never with 500, and the categories
    table, the row named [N] included, is what it was before. *)
Theorem post_categories_duplicate_name {RT : Runtime} (cfg : config) (now : Z)
    (st : store) (N : string) (row : category_row) (image : option file_part) :
  In row (categories st) ->
  cat_name row = Some N ->
  exists error,
    snd (handle cfg now st (POST_categories (Some N) image))
      = {| res_status := 200; res_body := JsonFailure error |}
    /\ res_status (snd (handle cfg now st (POST_categories (Some N) image))) <> 500
    /\ categories (fst (handle cfg now st (POST_categories (Some N) image)))
       = categories st
    /\ In row (categories (fst (handle cfg now st (POST_categories (Some N) image)))).
Proof.
  intros Hin Hname. simpl. unfold post_categories.
  pose proof (upload_single_categories now st image) as [Hcat _].
  destruct (upload_single now st image) as [st1 req_file]. simpl in Hcat.
  assert (Hin1 : In row (categories st1)) by (rewrite Hcat; exact Hin).
  destruct (insert_category_duplicate st1 N row (image_url cfg req_file) Hin1 Hname)
    as [error Herr].
  rewrite Herr. exists error. simpl. rewrite Hcat.
  repeat split; [discriminate | exact Hin].
Qed.

(** C1 at work: "Dairy" posted again to the example store. *)
Lemma post_categories_duplicate_name_witness :
  exists error,
    snd (handle (RT := example_runtime) example_config 1700000000123 example_store
           (POST_categories (Some "Dairy") None))
      = {| res_status := 200; res_body := JsonFailure error |}
    /\ res_status (snd (handle (RT := example_runtime) example_config 1700000000123
                          example_store (POST_categories (Some "Dairy") None))) <> 500
    /\ categories (fst (handle (RT := example_runtime) example_config 1700000000123
                          example_store (POST_categories (Some "Dairy") None)))
       = categories example_store
    /\ In {| cat_id := 1; cat_name := Some "Dairy"; cat_image := None |}
          (categories (fst (handle (RT := example_runtime) example_config 1700000000123
                              example_store (POST_categories (Some "Dairy") None)))).
Proof.
  apply (post_categories_duplicate_name (RT := example_runtime) example_config
           1700000000123 example_store "Dairy"
           {| cat_id := 1; cat_name := Some "Dairy"; cat_image := None |} None).
  - simpl. left. reflexivity.
  - reflexivity.
Defined.

(** The NULL name is outside the UNIQUE index: a category without a name
    can be inserted next to another one. *)
Lemma name_taken_null {RT : Runtime} (rows : list category_row) :
  name_taken None rows = false.
Proof. reflexivity. Qed.

(** *** Deletes *)


(** *** Products *)

(** C10.  GET /products with [category] present and empty is served as GET
    /products without [category]: every row of the table, in table order,
    whatever its category. *)
Theorem get_products_empty_category {RT : Runtime} (cfg : config) (now : Z)
    (st : store) :
  handle cfg now st (GET_products (Some ""))
    = handle cfg now st (GET_products None)
  /\ handle cfg now st (GET_products (Some ""))
    = (st, {| res_status := 200; res_body := JsonProducts (products st) |}).
Proof. split; reflexivity. Qed.

Lemma truthy_nonempty (s : string) : s <> "" -> truthy s = true.
Proof.
  intros Hne. unfold truthy. destruct (String.eqb_spec s ""); [contradiction|reflexivity].
Qed.

(** C6, as the handler has it.  GET /products with a non-empty [category]
    answers with the rows of the table whose category is that very string
    (the same characters in the same case), in table order, and no others;
    without [category] it answers with every row. *)
Theorem get_products_by_category {RT : Runtime} (cfg : config) (now : Z)
    (st : store) (name : string) :
  name <> "" ->
  (exists rows,
     handle cfg now st (GET_products (Some name))
       = (st, {| res_status := 200; res_body := JsonProducts rows |})
     /\ rows = filter (fun r => text_column_eq (prod_category r) name) (products st)
     /\ (forall r, In r rows <-> In r (products st) /\ prod_category r = Some name))
  /\ handle cfg now st (GET_products None)
     = (st, {| res_status := 200; res_body := JsonProducts (products st) |}).
Proof.
  intros Hne. split; [|reflexivity].
  exists (filter (fun r => text_column_eq (prod_category r) name) (products st)).
  split; [|split; [reflexivity|]].
  - simpl. unfold get_products. rewrite (truthy_nonempty name Hne). reflexivity.
  - intros r. rewrite filter_In. unfold text_column_eq.
    destruct (prod_category r) as [c|].
    + destruct (String.eqb_spec c name) as [->|Hc].
      * tauto.
      * split; [intros [_ H]; discriminate | intros [_ H]; congruence].
    + split; intros [_ H]; discriminate.
Qed.

(** C6 at work: "Dairy" against the example store finds Milk and not Curd,
    whose category is "dairy". *)
Lemma get_products_by_category_witness :
  (exists rows,
     handle (RT := example_runtime) example_config 0 example_store
            (GET_products (Some "Dairy"))
       = (example_store, {| res_status := 200; res_body := JsonProducts rows |})
     /\ rows = filter (fun r => text_column_eq (prod_category r) "Dairy")
                      (products example_store)
     /\ (forall r, In r rows <->
                   In r (products example_store) /\ prod_category r = Some "Dairy"))
  /\ handle (RT := example_runtime) example_config 0 example_store (GET_products None)
     = (example_store,
        {| res_status := 200; res_body := JsonProducts (products example_store) |}).
Proof.
  apply (get_products_by_category (RT := example_runtime) example_config 0
           example_store "Dairy").
  discriminate.
Defined.

(** C6 as stated fails at the empty string: [?category=] is present, no row
    of the example store has the empty category, and all three rows come
    back. *)
Lemma empty_category_returns_all_products :
  filter (fun r => text_column_eq (prod_category r) "") (products example_store) = []
  /\ handle (RT := example_runtime) example_config 0 example_store
            (GET_products (Some ""))
     = (example_store,
        {| res_status := 200; res_body := JsonProducts (products example_store) |})
  /\ List.length (products example_store) = 3%nat.
Proof. repeat split. Qed.

(** *** The leave status *)

(** C4.  GET /status/leave never changes the store and answers 200 with
    [{status}]: the value of the first row whose key is "leave" when the
    status table has one, and the string "none" when it has none; in that
    case the table still has no such row afterwards, "none" comes from the
    handler. *)
Theorem get_status_leave_sentinel {RT : Runtime} (cfg : config) (now : Z)
    (st : store) :
  handle cfg now st GET_status_leave
    = (st, {| res_status := 200;
              res_body :=
                JsonStatus
                  match find (fun r => (st_key r =? "leave")%string) (status st) with
                  | Some row => st_value row
                  | None => Some "none"
                  end |})
  /\ ((forall r, In r (status st) -> st_key r <> "leave") ->
      handle cfg now st GET_status_leave
        = (st, {| res_status := 200; res_body := JsonStatus (Some "none") |}))
  /\ (forall row, In row (status st) -> st_key row = "leave" ->
      exists row', In row' (status st) /\ st_key row' = "leave"
        /\ snd (handle cfg now st GET_status_leave)
           = {| res_status := 200; res_body := JsonStatus (st_value row') |}).
Proof.
  assert (Hmain : handle cfg now st GET_status_leave
    = (st, {| res_status := 200;
              res_body :=
                JsonStatus
                  match find (fun r => (st_key r =? "leave")%string) (status st) with
                  | Some row => st_value row
                  | None => Some "none"
                  end |})).
  { simpl. unfold get_status_leave, select_status_value.
    destruct (find _ (status st)); reflexivity. }
  split; [exact Hmain|]. split.
  - intros Hnone. rewrite Hmain.
    destruct (find _ (status st)) as [row|] eqn:Hfind; [|reflexivity].
    apply find_some in Hfind. destruct Hfind as [Hin Hkey].
    apply String.eqb_eq in Hkey. exfalso. exact (Hnone row Hin Hkey).
  - intros row Hin Hkey. rewrite Hmain.
    destruct (find _ (status st)) as [row'|] eqn:Hfind.
    + apply find_some in Hfind. destruct Hfind as [Hin' Hkey'].
      apply String.eqb_eq in Hkey'. exists row'. auto.
    + exfalso. apply (find_none _ _ Hfind) in Hin.
      rewrite Hkey in Hin. discriminate.
Qed.

(** *** Rowids *)

Lemma max_rowid_upper (ids : list Z) (i : Z) : In i ids -> i <= max_rowid ids.
Proof.
  induction ids as [|x ids IH]; intros Hin; [contradiction|].
  simpl. destruct Hin as [->|Hin]; [lia|]. specialize (IH Hin). lia.
Qed.

Lemma autoincrement_ok (seq : Z) (ids : list Z) :
  rowids_left seq ids ->
  autoincrement seq ids = DbOk (Z.max seq (max_rowid ids) + 1).
Proof.
  unfold rowids_left, autoincrement. intros Hleft.
  destruct (Z.leb_spec MAX_ROWID (Z.max seq (max_rowid ids))); [lia|reflexivity].
Qed.

Lemma autoincrement_fresh (seq : Z) (ids : list Z) (id : Z) :
  autoincrement seq ids = DbOk id ->
  seq < id /\ (forall i, In i ids -> i < id) /\ id <= MAX_ROWID.
Proof.
  unfold autoincrement.
  destruct (Z.leb_spec MAX_ROWID (Z.max seq (max_rowid ids))) as [|Hlt];
    [discriminate|].
  intros [= <-]. split; [lia|]. split; [|lia].
  intros i Hin. apply max_rowid_upper in Hin. lia.
Qed.

(** *** Orders *)

Lemma round_to_double_exact (z : Z) :
  - 2 ^ 53 <= z <= 2 ^ 53 -> round_to_double z = z.
Proof.
  intros Hz. unfold round_to_double.
  destruct (Z.ltb_spec (Z.abs z) (2 ^ 53)) as [_|Habs]; [reflexivity|].
  assert (Hcases : z = 2 ^ 53 \/ z = - 2 ^ 53) by lia.
  destruct Hcases as [-> | ->]; reflexivity.
Qed.

(** A rowid the table hands out while its rowids are exact is answered as
    it is. *)
Lemma lastID_exact (seq : Z) (ids : list Z) :
  rowids_exact seq ids ->
  rowids_left seq ids
  /\ lastID (Z.max seq (max_rowid ids) + 1) = Z.max seq (max_rowid ids) + 1.
Proof.
  unfold rowids_exact, rowids_left, lastID, MAX_ROWID. intros Hexact.
  assert (Hnonneg : 0 <= max_rowid ids).
  { induction ids as [|x ids IH]; simpl; lia. }
  split; [lia|]. apply round_to_double_exact. lia.
Qed.

(** C7, as the program has it.  While the largest rowid the orders table
    has handed out is below 2^53, POST /orders with a body
    [{items, details}] answers 200 [{success: true, orderId}] and leaves
    the orders table as it was with one row appended: the row holds
    [JSON.stringify(items)], [JSON.stringify(details)] and the current
    timestamp, its rowid is [orderId] and is above every rowid of the
    table.  The other tables and the uploaded files are as they were. *)
Theorem post_orders_inserts_one_row {RT : Runtime} (cfg : config) (now : Z)
    (st : store) (items details : json) :
  rowids_exact (orders_seq st) (map ord_id (orders st)) ->
  exists orderId,
    snd (handle cfg now st (POST_orders (Some items) (Some details)))
      = {| res_status := 200; res_body := JsonOrderCreated orderId |}
    /\ orders (fst (handle cfg now st (POST_orders (Some items) (Some details))))
       = orders st ++
           [{| ord_id := orderId;
               ord_items := Some (JSON_stringify items);
               ord_details := Some (JSON_stringify details);
               ord_created_at := CURRENT_TIMESTAMP now |}]
    /\ (forall r, In r (orders st) -> ord_id r < orderId)
    /\ categories (fst (handle cfg now st
                          (POST_orders (Some items) (Some details))))
       = categories st
    /\ products (fst (handle cfg now st
                        (POST_orders (Some items) (Some details))))
       = products st
    /\ status (fst (handle cfg now st (POST_orders (Some items) (Some details))))
       = status st
    /\ uploads (fst (handle cfg now st (POST_orders (Some items) (Some details))))
       = uploads st.
Proof.
  intros Hexact. destruct (lastID_exact _ _ Hexact) as [Hleft Hid].
  pose proof (autoincrement_ok _ _ Hleft) as Hauto.
  exists (Z.max (orders_seq st) (max_rowid (map ord_id (orders st))) + 1).
  simpl. unfold post_orders, insert_order. rewrite Hauto. simpl. rewrite Hid.
  repeat split.
  intros r Hin. apply autoincrement_fresh in Hauto.
  destruct Hauto as (_ & Hfresh & _). apply Hfresh. apply in_map. exact Hin.
Qed.

(** C7 at work: an order placed on the example store with two orders on
    file gets rowid 10, the sequence being at 9. *)
Lemma post_orders_inserts_one_row_witness :
  exists orderId,
    snd (handle (RT := example_runtime) example_config 1700000000123
           example_orders_store
           (POST_orders (RT := example_runtime) (Some 7) (Some 42)))
      = {| res_status := 200; res_body := JsonOrderCreated orderId |}
    /\ orders (fst (handle (RT := example_runtime) example_config 1700000000123
                      example_orders_store
                      (POST_orders (RT := example_runtime) (Some 7) (Some 42))))
       = orders example_orders_store ++
           [{| ord_id := orderId;
               ord_items := Some (JSON_stringify (Runtime := example_runtime) 7);
               ord_details := Some (JSON_stringify (Runtime := example_runtime) 42);
               ord_created_at := CURRENT_TIMESTAMP 1700000000123 |}]
    /\ (forall r, In r (orders example_orders_store) -> ord_id r < orderId)
    /\ categories (fst (handle (RT := example_runtime) example_config
                          1700000000123 example_orders_store
                          (POST_orders (RT := example_runtime) (Some 7) (Some 42))))
       = categories example_orders_store
    /\ products (fst (handle (RT := example_runtime) example_config
                        1700000000123 example_orders_store
                        (POST_orders (RT := example_runtime) (Some 7) (Some 42))))
       = products example_orders_store
    /\ status (fst (handle (RT := example_runtime) example_config 1700000000123
                      example_orders_store
                      (POST_orders (RT := example_runtime) (Some 7) (Some 42))))
       = status example_orders_store
    /\ uploads (fst (handle (RT := example_runtime) example_config 1700000000123
                       example_orders_store
                       (POST_orders (RT := example_runtime) (Some 7) (Some 42))))
       = uploads example_orders_store.
Proof.
  apply (post_orders_inserts_one_row (RT := example_runtime) example_config
           1700000000123 example_orders_store 7 42).
  unfold rowids_exact. simpl. reflexivity.
Defined.

(** C7 as stated fails where rowids pass 2^53: on a store whose orders
    sequence stands at 2^53 the inserted row has rowid 2^53 + 1 and the
    answer carries [orderId] 2^53, the nearest JavaScript number. *)
Lemma post_orders_answers_a_rounded_id :
  snd (handle (RT := example_runtime) example_config 1700000000123
         example_large_store
         (POST_orders (RT := example_runtime) (Some 7) (Some 42)))
  = {| res_status := 200; res_body := JsonOrderCreated 9007199254740992 |}
  /\ orders (fst (handle (RT := example_runtime) example_config 1700000000123
                    example_large_store
                    (POST_orders (RT := example_runtime) (Some 7) (Some 42))))
     = [{| ord_id := 9007199254740993; ord_items := Some "7";
           ord_details := Some "42"; ord_created_at := 1700000000 |}].
Proof. split; reflexivity. Qed.

(** A request other than POST /orders leaves the orders table and its
    sequence as they are. *)
Lemma handle_orders_frame {RT : Runtime} (cfg : config) (now : Z) (st : store)
    (req : request) :
  match req with
  | POST_orders _ _ => True
  | _ => orders (fst (handle cfg now st req)) = orders st
         /\ orders_seq (fst (handle cfg now st req)) = orders_seq st
  end.
Proof.
  destruct req; simpl; try (split; reflexivity); try exact I.
  - unfold post_categories.
    pose proof (upload_single_orders now st image) as [Ho Hs].
    destruct (upload_single now st image) as [st1 f]. simpl in Ho, Hs.
    unfold insert_category. destruct (autoincrement _ _); [|simpl; auto].
    destruct (name_taken _ _); simpl; auto.
  - unfold get_products. destruct category as [c|]; [destruct (truthy c)|];
      simpl; auto.
  - unfold post_products.
    pose proof (upload_single_orders now st image) as [Ho Hs].
    destruct (upload_single now st image) as [st1 f]. simpl in Ho, Hs.
    unfold insert_product. destruct (autoincrement _ _); simpl; auto.
  - unfold post_status_leave, upsert_status_leave.
    destruct (existsb _ _); simpl; auto.
  - unfold get_uploads. destruct (find _ _); simpl; auto.
Qed.

(** POST /orders appends at most one row. *)
Lemma post_orders_appends {RT : Runtime} (cfg : config) (now : Z) (st : store)
    (items details : option json) :
  exists added,
    orders (fst (handle cfg now st (POST_orders items details)))
    = orders st ++ added.
Proof.
  simpl. unfold post_orders, insert_order.
  destruct (autoincrement _ _) as [id|m]; simpl.
  - eexists. reflexivity.
  - exists []. symmetry. apply app_nil_r.
Qed.

Lemma handle_orders_prefix {RT : Runtime} (cfg : config) (now : Z) (st : store)
    (req : request) :
  exists added, orders (fst (handle cfg now st req)) = orders st ++ added.
Proof.
  pose proof (handle_orders_frame cfg now st req) as Hframe.
  destruct req;
    try (exists []; rewrite (proj1 Hframe); symmetry; apply app_nil_r).
  apply post_orders_appends.
Qed.

Lemma run_orders_prefix {RT : Runtime} (cfg : config)
    (reqs : list (Z * request)) (st : store) :
  exists added, orders (run cfg st reqs) = orders st ++ added.
Proof.
  revert st. induction reqs as [|[now req] reqs IH]; intros st; simpl.
  - exists []. symmetry. apply app_nil_r.
  - destruct (handle_orders_prefix cfg now st req) as [a1 H1].
    destruct (IH (fst (handle cfg now st req))) as [a2 H2].
    exists (a1 ++ a2). rewrite H2, H1. symmetry. apply app_assoc.
Qed.

(** C9.  No request removes or alters an order row: after any request, and
    after any list of requests, the orders table is the table of before
    followed by the rows added since, so every row of before is still there
    with the same fields; a request other than POST /orders leaves the table
    exactly as it was. *)
Theorem order_rows_are_kept {RT : Runtime} (cfg : config) (now : Z) (st : store)
    (req : request) (reqs : list (Z * request)) :
  (exists added, orders (fst (handle cfg now st req)) = orders st ++ added)
  /\ (forall r, In r (orders st) -> In r (orders (fst (handle cfg now st req))))
  /\ match req with
     | POST_orders _ _ => True
     | _ => orders (fst (handle cfg now st req)) = orders st
     end
  /\ (exists added, orders (run cfg st reqs) = orders st ++ added)
  /\ (forall r, In r (orders st) -> In r (orders (run cfg st reqs))).
Proof.
  pose proof (handle_orders_prefix cfg now st req) as [a1 H1].
  pose proof (run_orders_prefix cfg reqs st) as [a2 H2].
  split; [eauto|]. split.
  { intros r Hin. rewrite H1. apply in_or_app. left. exact Hin. }
  split.
  { pose proof (handle_orders_frame cfg now st req) as Hframe.
    destruct req; try exact I; apply Hframe. }
  split; [eauto|].
  intros r Hin. rewrite H2. apply in_or_app. left. exact Hin.
Qed.

(** *** Product images *)

(** C8.  While the products table can take a row, POST /products with a
    file under [image] stores, and answers with, the image
    [BACKEND_URL + "/uploads/" + filename], where the file name is the
    clock reading in milliseconds followed by the extension of the
    original file name; without a file the stored image, like the one of
    the response, is null.  The answer carries the rowid of the new row as
    the JavaScript number [this.lastID]. *)
Theorem post_products_image_url {RT : Runtime} (cfg : config) (now : Z)
    (st : store) (name description price category : option string) :
  rowids_left (products_seq st) (map prod_id (products st)) ->
  (forall file : file_part,
     exists rowid,
       snd (handle cfg now st
              (POST_products name description price category (Some file)))
         = {| res_status := 200;
              res_body :=
                JsonProductCreated (lastID rowid)
                  (Some (BACKEND_URL cfg ++ "/uploads/" ++
                         number_to_string now ++
                         path_extname (originalname file))%string) |}
       /\ products (fst (handle cfg now st
                           (POST_products name description price category
                                          (Some file))))
          = products st ++
              [{| prod_id := rowid; prod_name := name;
                  prod_description := description;
                  prod_price := price_cell price;
                  prod_image :=
                    Some (BACKEND_URL cfg ++ "/uploads/" ++
                          number_to_string now ++
                          path_extname (originalname file))%string;
                  prod_category := category |}])
  /\ (exists rowid,
        snd (handle cfg now st
               (POST_products name description price category None))
          = {| res_status := 200;
               res_body := JsonProductCreated (lastID rowid) None |}
        /\ products (fst (handle cfg now st
                            (POST_products name description price category None)))
           = products st ++
               [{| prod_id := rowid; prod_name := name;
                   prod_description := description;
                   prod_price := price_cell price;
                   prod_image := None;
                   prod_category := category |}]).
Proof.
  intros Hleft. pose proof (autoincrement_ok _ _ Hleft) as Hauto.
  split; [intros file|];
    exists (Z.max (products_seq st) (max_rowid (map prod_id (products st))) + 1);
    simpl; unfold post_products, insert_product; simpl; rewrite Hauto;
    split; reflexivity.
Qed.

(** C8 at work: "milk.png" uploaded to the example store at 1700000000123. *)
Lemma post_products_image_url_witness :
  (forall file : file_part,
     exists rowid,
       snd (handle (RT := example_runtime) example_config 1700000000123
              example_store
              (POST_products (Some "Ghee") None (Some "450") (Some "Dairy")
                             (Some file)))
         = {| res_status := 200;
              res_body :=
                JsonProductCreated (lastID rowid)
                  (Some (BACKEND_URL example_config ++ "/uploads/" ++
                         number_to_string 1700000000123 ++
                         path_extname (Runtime := example_runtime)
                                      (originalname file))%string) |}
       /\ products (fst (handle (RT := example_runtime) example_config
                           1700000000123 example_store
                           (POST_products (Some "Ghee") None (Some "450")
                                          (Some "Dairy") (Some file))))
          = products example_store ++
              [{| prod_id := rowid; prod_name := Some "Ghee";
                  prod_description := None;
                  prod_price := price_cell (RT := example_runtime) (Some "450");
                  prod_image :=
                    Some (BACKEND_URL example_config ++ "/uploads/" ++
                          number_to_string 1700000000123 ++
                          path_extname (Runtime := example_runtime)
                                       (originalname file))%string;
                  prod_category := Some "Dairy" |}])
  /\ (exists rowid,
        snd (handle (RT := example_runtime) example_config 1700000000123
               example_store
               (POST_products (Some "Ghee") None (Some "450") (Some "Dairy") None))
          = {| res_status := 200;
               res_body := JsonProductCreated (lastID rowid) None |}
        /\ products (fst (handle (RT := example_runtime) example_config
                            1700000000123 example_store
                            (POST_products (Some "Ghee") None (Some "450")
                                           (Some "Dairy") None)))
           = products example_store ++
               [{| prod_id := rowid; prod_name := Some "Ghee";
                   prod_description := None;
                   prod_price := price_cell (RT := example_runtime) (Some "450");
                   prod_image := None;
                   prod_category := Some "Dairy" |}]).
Proof.
  apply (post_products_image_url example_config
           1700000000123 example_store (Some "Ghee") None (Some "450")
           (Some "Dairy")).
  unfold rowids_left. simpl. reflexivity.
Defined.

(** The same request evaluated: the row and the response carry
    "http://localhost:5000/uploads/1700000000123.png". *)
Example post_products_upload_evaluated :
  snd (handle (RT := example_runtime) example_config 1700000000123 example_store
         (POST_products (Some "Ghee") None (Some "450") (Some "Dairy")
            (Some {| originalname := "milk.png"; file_content := "png" |})))
  = {| res_status := 200;
       res_body :=
         JsonProductCreated 6
           (Some "http://localhost:5000/uploads/1700000000123.png") |}.
Proof. reflexivity. Qed.

(** *** The leave status: the upsert *)

Section Upsert.

Context {RT : Runtime}.
Variable value : option string.

Lemma overwrite_key (rows : list status_row) :
  map st_key (map (overwrite value) rows) = map st_key rows.
Proof.
  induction rows as [|r rows IH]; [reflexivity|]. simpl. rewrite IH. f_equal.
  unfold overwrite. destruct (st_key r =? "leave")%string; reflexivity.
Qed.

Lemma overwrite_other (rows : list status_row) :
  ~ In "leave" (map st_key rows) -> map (overwrite value) rows = rows.
Proof.
  induction rows as [|r rows IH]; intros Hnot; [reflexivity|]. simpl in *.
  rewrite IH by tauto. f_equal. unfold overwrite.
  destruct (String.eqb_spec (st_key r) "leave") as [Heq|]; [|reflexivity].
  exfalso. apply Hnot. left. exact Heq.
Qed.

Lemma find_overwrite (rows : list status_row) :
  find (fun r => (st_key r =? "leave")%string) (map (overwrite value) rows)
  = option_map (fun r => {| st_key := st_key r; st_value := value |})
      (find (fun r => (st_key r =? "leave")%string) rows).
Proof.
  induction rows as [|r rows IH]; [reflexivity|]. simpl. unfold overwrite at 1 2.
  destruct (st_key r =? "leave")%string eqn:Hkey; simpl; rewrite ?Hkey; auto.
Qed.

Lemma existsb_find_leave (rows : list status_row) :
  existsb (fun r => (st_key r =? "leave")%string) rows = false ->
  find (fun r => (st_key r =? "leave")%string) rows = None.
Proof.
  induction rows as [|r rows IH]; [reflexivity|]. simpl.
  destruct (st_key r =? "leave")%string; simpl; [discriminate|exact IH].
Qed.

Lemma existsb_leave_keys (rows : list status_row) :
  existsb (fun r => (st_key r =? "leave")%string) rows = true
  <-> In "leave" (map st_key rows).
Proof.
  rewrite existsb_exists, in_map_iff. split.
  - intros (r & Hin & Hkey). apply String.eqb_eq in Hkey. eauto.
  - intros (r & Hkey & Hin). exists r. rewrite Hkey. auto.
Qed.

(** The value GET /status/leave finds after the upsert is the one bound. *)
Lemma upsert_then_find (st st1 : store) :
  upsert_status_leave st value = DbOk st1 ->
  option_map st_value
    (find (fun r => (st_key r =? "leave")%string) (status st1)) = Some value.
Proof.
  unfold upsert_status_leave.
  destruct (existsb _ (status st)) eqn:Hex; intros [= <-]; simpl.
  - rewrite find_overwrite.
    destruct (find _ (status st)) as [r|] eqn:Hfind; [reflexivity|].
    apply existsb_exists in Hex. destruct Hex as (r & Hin & Hkey).
    rewrite (find_none _ _ Hfind r Hin) in Hkey. discriminate.
  - induction (status st) as [|r rows IH]; [reflexivity|]. simpl in *.
    destruct (st_key r =? "leave")%string; [discriminate|]. apply IH. exact Hex.
Qed.

(** The upsert keeps the PRIMARY KEY: no key twice. *)
Lemma upsert_keys_unique (st st1 : store) :
  upsert_status_leave st value = DbOk st1 ->
  NoDup (map st_key (status st)) -> NoDup (map st_key (status st1)).
Proof.
  unfold upsert_status_leave.
  destruct (existsb _ (status st)) eqn:Hex; intros [= <-] Hnodup; simpl.
  - rewrite overwrite_key. exact Hnodup.
  - rewrite map_app. simpl. apply NoDup_app; [exact Hnodup | repeat constructor; auto |].
    intros k Hin [<-|[]]. apply existsb_leave_keys in Hin. congruence.
Qed.

Lemma upsert_has_leave (st st1 : store) :
  upsert_status_leave st value = DbOk st1 -> In "leave" (map st_key (status st1)).
Proof.
  unfold upsert_status_leave.
  destruct (existsb _ (status st)) eqn:Hex; intros [= <-]; simpl.
  - rewrite overwrite_key. apply existsb_leave_keys. exact Hex.
  - rewrite map_app. apply in_or_app. right. left. reflexivity.
Qed.

End Upsert.

Lemma leave_rows_none (rows : list status_row) :
  ~ In "leave" (map st_key rows) -> leave_rows rows = [].
Proof.
  induction rows as [|r rows IH]; intros Hnot; [reflexivity|].
  simpl in *. destruct (String.eqb_spec (st_key r) "leave") as [Heq|_].
  - exfalso. apply Hnot. left. exact Heq.
  - apply IH. tauto.
Qed.

(** Under the PRIMARY KEY a key has at most one row. *)
Lemma leave_rows_at_most_one (rows : list status_row) :
  NoDup (map st_key rows) -> (List.length (leave_rows rows) <= 1)%nat.
Proof.
  induction rows as [|r rows IH]; intros Hnodup; [simpl; lia|].
  simpl in *. inversion Hnodup as [|k ks Hnotin Hrest]; subst.
  destruct (String.eqb_spec (st_key r) "leave") as [Heq|_].
  - rewrite Heq in Hnotin. rewrite (leave_rows_none rows Hnotin). simpl. lia.
  - apply IH. exact Hrest.
Qed.

Lemma leave_rows_some (rows : list status_row) :
  In "leave" (map st_key rows) -> (1 <= List.length (leave_rows rows))%nat.
Proof.
  induction rows as [|r rows IH]; intros Hin; [contradiction|].
  simpl in *. destruct (String.eqb_spec (st_key r) "leave") as [_|Hne].
  - simpl. lia.
  - apply IH. destruct Hin as [Heq|Hin]; [contradiction|exact Hin].
Qed.

(** A request other than POST /status/leave leaves the status table as it is. *)
Lemma handle_status_frame {RT : Runtime} (cfg : config) (now : Z) (st : store)
    (req : request) :
  match req with
  | POST_status_leave _ => True
  | _ => status (fst (handle cfg now st req)) = status st
  end.
Proof.
  destruct req; simpl; try reflexivity; try exact I.
  - unfold post_categories.
    pose proof (upload_single_status now st image) as Hs.
    destruct (upload_single now st image) as [st1 f]. simpl in Hs.
    unfold insert_category. destruct (autoincrement _ _); [|simpl; auto].
    destruct (name_taken _ _); simpl; auto.
  - unfold get_products. destruct category as [c|]; [destruct (truthy c)|];
      simpl; auto.
  - unfold post_products.
    pose proof (upload_single_status now st image) as Hs.
    destruct (upload_single now st image) as [st1 f]. simpl in Hs.
    unfold insert_product. destruct (autoincrement _ _); simpl; auto.
  - unfold post_orders, insert_order. destruct (autoincrement _ _); simpl; auto.
  - unfold get_uploads. destruct (find _ _); simpl; auto.
Qed.

Lemma post_status_leave_statement {RT : Runtime} (cfg : config) (now : Z)
    (st : store) (v : option string) :
  upsert_status_leave st v = DbOk (fst (handle cfg now st (POST_status_leave v)))
  /\ snd (handle cfg now st (POST_status_leave v))
     = {| res_status := 200; res_body := JsonSuccess |}.
Proof.
  simpl. unfold post_status_leave, upsert_status_leave.
  destruct (existsb _ _); split; reflexivity.
Qed.

(** Every request keeps the PRIMARY KEY of the status table. *)
Lemma handle_status_keys_unique {RT : Runtime} (cfg : config) (now : Z)
    (st : store) (req : request) :
  NoDup (map st_key (status st)) ->
  NoDup (map st_key (status (fst (handle cfg now st req)))).
Proof.
  intros Hnodup. pose proof (handle_status_frame cfg now st req) as Hframe.
  destruct req; try (rewrite Hframe; exact Hnodup).
  destruct (post_status_leave_statement cfg now st status0) as [Hup _].
  exact (upsert_keys_unique _ _ _ Hup Hnodup).
Qed.

Lemma run_app {RT : Runtime} (cfg : config) (reqs1 reqs2 : list (Z * request))
    (st : store) :
  run cfg st (reqs1 ++ reqs2) = run cfg (run cfg st reqs1) reqs2.
Proof.
  revert st. induction reqs1 as [|[now req] reqs1 IH]; intros st; simpl; auto.
Qed.

Lemma run_last {RT : Runtime} (cfg : config) (reqs : list (Z * request))
    (now : Z) (req : request) (st : store) :
  run cfg st (reqs ++ [(now, req)]) = fst (handle cfg now (run cfg st reqs) req).
Proof. rewrite run_app. reflexivity. Qed.

Lemma run_status_keys_unique {RT : Runtime} (cfg : config)
    (reqs : list (Z * request)) (st : store) :
  NoDup (map st_key (status st)) ->
  NoDup (map st_key (status (run cfg st reqs))).
Proof.
  revert st. induction reqs as [|[now req] reqs IH]; intros st Hnodup; simpl.
  - exact Hnodup.
  - apply IH. apply handle_status_keys_unique. exact Hnodup.
Qed.

(** POST /status/leave and then GET /status/leave, on any store. *)
Lemma post_then_get_status_leave {RT : Runtime} (cfg : config) (now now' : Z)
    (st : store) (v : option string) :
  handle cfg now' (fst (handle cfg now st (POST_status_leave v))) GET_status_leave
  = (fst (handle cfg now st (POST_status_leave v)),
     {| res_status := 200; res_body := JsonStatus v |}).
Proof.
  destruct (post_status_leave_statement cfg now st v) as [Hup _].
  apply upsert_then_find in Hup.
  change (handle cfg now' ?s GET_status_leave) with (get_status_leave s).
  unfold get_status_leave, select_status_value.
  destruct (find _ _) as [row|]; simpl in Hup; [|discriminate].
  injection Hup as Hvalue. simpl. rewrite Hvalue. reflexivity.
Qed.

(** C3.  POST /status/leave runs the one upsert statement and answers 200
    [{success: true}].  On a store whose status table obeys its PRIMARY KEY:
    when there is no row under "leave" the request adds the row
    [("leave", v)] and changes nothing else; when there is one, the request
    puts [v] in that row and changes nothing else; and after any list of
    requests that ends in POST /status/leave with [v], the status table has
    exactly one row under "leave" and GET /status/leave answers
    [{status: v}].  At any time the table has at most one such row. *)
Theorem post_status_leave_upsert {RT : Runtime} (cfg : config) (now now' : Z)
    (st : store) (v : option string) (reqs : list (Z * request)) :
  NoDup (map st_key (status st)) ->
  (upsert_status_leave st v = DbOk (fst (handle cfg now st (POST_status_leave v)))
   /\ snd (handle cfg now st (POST_status_leave v))
      = {| res_status := 200; res_body := JsonSuccess |})
  /\ (~ In "leave" (map st_key (status st)) ->
      fst (handle cfg now st (POST_status_leave v))
      = set_status st (status st ++ [{| st_key := "leave"; st_value := v |}]))
  /\ (forall before old after,
        status st = before ++ {| st_key := "leave"; st_value := old |} :: after ->
        fst (handle cfg now st (POST_status_leave v))
        = set_status st
            (before ++ {| st_key := "leave"; st_value := v |} :: after))
  /\ (List.length (leave_rows (status (run cfg st reqs))) <= 1)%nat
  /\ List.length
       (leave_rows (status (run cfg st (reqs ++ [(now, POST_status_leave v)]))))
     = 1%nat
  /\ handle cfg now' (run cfg st (reqs ++ [(now, POST_status_leave v)]))
            GET_status_leave
     = (run cfg st (reqs ++ [(now, POST_status_leave v)]),
        {| res_status := 200; res_body := JsonStatus v |}).
Proof.
  intros Hnodup. split; [apply post_status_leave_statement|].
  split; [|split; [|split; [|split]]].
  - intros Habsent. simpl. unfold post_status_leave, upsert_status_leave.
    destruct (existsb _ (status st)) eqn:Hex; [|reflexivity].
    apply existsb_leave_keys in Hex. contradiction.
  - intros before old after Hrows. simpl.
    unfold post_status_leave, upsert_status_leave.
    assert (Hex : existsb (fun r => (st_key r =? "leave")%string) (status st) = true).
    { apply existsb_leave_keys. rewrite Hrows, map_app. apply in_or_app.
      right. left. reflexivity. }
    rewrite Hex. simpl. f_equal. rewrite Hrows in Hnodup |- *.
    rewrite map_app in Hnodup. simpl in Hnodup.
    apply NoDup_remove_2 in Hnodup.
    rewrite map_app. simpl.
    rewrite !overwrite_other; [reflexivity | |];
      intros Hin; apply Hnodup; apply in_or_app; auto.
  - apply leave_rows_at_most_one. apply run_status_keys_unique. exact Hnodup.
  - rewrite run_last.
    pose proof (run_status_keys_unique cfg reqs st Hnodup) as Hn.
    destruct (post_status_leave_statement cfg now (run cfg st reqs) v) as [Hup _].
    pose proof (upsert_keys_unique _ _ _ Hup Hn) as Hn1.
    pose proof (upsert_has_leave _ _ _ Hup) as Hin.
    apply leave_rows_at_most_one in Hn1. apply leave_rows_some in Hin.
    lia.
  - rewrite run_last. apply post_then_get_status_leave.
Qed.

(** C3 at work on the fresh store: "on leave", then "open", with a read of
    the catalog in between. *)
Lemma post_status_leave_upsert_witness :
  List.length
    (leave_rows
       (status
          (run (RT := example_runtime) example_config empty_store
             ([(1000, POST_status_leave (Some "on leave")); (2000, GET_products None)]
              ++ [(3000, POST_status_leave (Some "open"))]))))
  = 1%nat
  /\ handle (RT := example_runtime) example_config 4000
       (run (RT := example_runtime) example_config empty_store
          ([(1000, POST_status_leave (Some "on leave")); (2000, GET_products None)]
           ++ [(3000, POST_status_leave (Some "open"))]))
       GET_status_leave
     = (run (RT := example_runtime) example_config empty_store
          ([(1000, POST_status_leave (Some "on leave")); (2000, GET_products None)]
           ++ [(3000, POST_status_leave (Some "open"))]),
        {| res_status := 200; res_body := JsonStatus (Some "open") |}).
Proof.
  apply (post_status_leave_upsert (RT := example_runtime) example_config 3000 4000
           empty_store (Some "open")
           [(1000, POST_status_leave (Some "on leave")); (2000, GET_products None)]).
  simpl. constructor.
Defined.

(** *** Subsequences *)

Section SubsequenceFacts.

Context {A : Type}.
Implicit Types (x : A) (sub l : list A).

Lemma Subsequence_refl l : Subsequence l l.
Proof. induction l; constructor; assumption. Qed.

Lemma Subsequence_nil_l l : Subsequence [] l.
Proof. induction l; constructor; assumption. Qed.

Lemma Subsequence_app sub1 l1 sub2 l2 :
  Subsequence sub1 l1 -> Subsequence sub2 l2 ->
  Subsequence (sub1 ++ sub2) (l1 ++ l2).
Proof.
  intros H1 H2. induction H1; simpl; try constructor; assumption.
Qed.

Lemma Subsequence_In sub l x : Subsequence sub l -> In x sub -> In x l.
Proof.
  intros Hsub. induction Hsub; simpl; intros Hin; [contradiction| |]; tauto.
Qed.

Lemma Subsequence_middle x sub l1 l2 :
  Subsequence sub (l1 ++ l2) -> Subsequence sub (l1 ++ x :: l2).
Proof.
  revert sub. induction l1 as [|y l1 IH]; intros sub H; simpl in *.
  - constructor. exact H.
  - inversion H; subst; constructor; apply IH; assumption.
Qed.

(** A subsequence of three elements, read as positions in the list. *)
Lemma Subsequence_three x y z l :
  Subsequence [x; y; z] l ->
  exists l1 l2 l3 l4, l = l1 ++ x :: l2 ++ y :: l3 ++ z :: l4.
Proof.
  assert (Hone : forall sub l0 a, Subsequence (a :: sub) l0 ->
            exists p q, l0 = p ++ a :: q /\ Subsequence sub q).
  { intros sub l0 a H. remember (a :: sub) as s eqn:Hs. revert a sub Hs.
    induction H as [|b s' l' H IH|b s' l' H IH]; intros a sub Hs.
    - discriminate.
    - injection Hs as -> ->. exists [], l'. auto.
    - destruct (IH a sub Hs) as (p & q & -> & Hq). exists (b :: p), q. auto. }
  intros H.
  destruct (Hone _ _ _ H) as (l1 & q1 & -> & H1).
  destruct (Hone _ _ _ H1) as (l2 & q2 & -> & H2).
  destruct (Hone _ _ _ H2) as (l3 & l4 & -> & _).
  exists l1, l2, l3, l4. reflexivity.
Qed.

Lemma Subsequence_three_at x y z l1 l2 l3 l4 :
  Subsequence [x; y; z] (l1 ++ x :: l2 ++ y :: l3 ++ z :: l4).
Proof.
  apply (Subsequence_app [] l1); [apply Subsequence_nil_l|]. constructor.
  apply (Subsequence_app [] l2); [apply Subsequence_nil_l|]. constructor.
  apply (Subsequence_app [] l3); [apply Subsequence_nil_l|]. constructor.
  apply Subsequence_nil_l.
Qed.

End SubsequenceFacts.

(** *** ORDER BY created_at ASC *)

Lemma insert_by_created_at_perm {RT : Runtime} (r : order_row)
    (l : list order_row) :
  Permutation (r :: l) (insert_by_created_at r l).
Proof.
  induction l as [|x l IH]; simpl; [reflexivity|].
  destruct (ord_created_at r <=? ord_created_at x); [reflexivity|].
  rewrite perm_swap. apply perm_skip. exact IH.
Qed.

(** The sorter returns the rows it was given, each as often as it was. *)
Lemma order_by_created_at_perm {RT : Runtime} (l : list order_row) :
  Permutation l (order_by_created_at l).
Proof.
  induction l as [|x l IH]; simpl; [reflexivity|].
  rewrite <- insert_by_created_at_perm. apply perm_skip. exact IH.
Qed.

Lemma insert_by_created_at_sorted {RT : Runtime} (r : order_row)
    (l : list order_row) :
  StronglySorted created_le l -> StronglySorted created_le (insert_by_created_at r l).
Proof.
  induction l as [|x l IH]; intros Hs; simpl.
  - repeat constructor.
  - inversion Hs as [|? ? Hrest Hall]; subst.
    destruct (Z.leb_spec (ord_created_at r) (ord_created_at x)) as [Hle|Hlt].
    + constructor; [exact Hs|]. constructor; [exact Hle|].
      eapply Forall_impl; [|exact Hall]. unfold created_le. intros; lia.
    + constructor; [apply IH; exact Hrest|].
      rewrite <- insert_by_created_at_perm. constructor; [|exact Hall].
      unfold created_le. lia.
Qed.

(** The sorter returns them oldest first. *)
Lemma order_by_created_at_sorted {RT : Runtime} (l : list order_row) :
  StronglySorted created_le (order_by_created_at l).
Proof.
  induction l as [|x l IH]; simpl; [constructor|].
  apply insert_by_created_at_sorted. exact IH.
Qed.

(** Where the insertion puts a row: behind the rows created strictly before
    it, in front of all others. *)
Lemma insert_by_created_at_split {RT : Runtime} (r : order_row)
    (l : list order_row) :
  exists l1 l2,
    l = l1 ++ l2 /\ insert_by_created_at r l = l1 ++ r :: l2
    /\ Forall (fun x => ord_created_at x < ord_created_at r) l1.
Proof.
  induction l as [|x l (l1 & l2 & Hl & Hins & Hall)]; simpl.
  - exists [], []. auto.
  - destruct (Z.leb_spec (ord_created_at r) (ord_created_at x)) as [Hle|Hlt].
    + exists [], (x :: l). auto.
    + exists (x :: l1), l2. rewrite Hl at 1. rewrite Hins. auto.
Qed.

Lemma Subsequence_past_older (r : order_row) (sub l1 l2 : list order_row) :
  Forall (fun x => ord_created_at x < ord_created_at r) l1 ->
  Forall (created_le r) sub ->
  Subsequence sub (l1 ++ l2) -> Subsequence sub l2.
Proof.
  intros Hl1. revert sub. induction Hl1 as [|x l1 Hx Hl1 IH]; intros sub Hsub H;
    [exact H|].
  simpl in H. inversion H as [|y s' l' H'|y s' l' H']; subst.
  - inversion Hsub as [|? ? Hrx _]; subst. unfold created_le in Hrx. lia.
  - apply IH; assumption.
Qed.

(** Rows that reach the sorter in the order of their creation leave it in
    that order, rows of the same second included. *)
Lemma order_by_created_at_stable {RT : Runtime} (sub l : list order_row) :
  Subsequence sub l -> StronglySorted created_le sub ->
  Subsequence sub (order_by_created_at l).
Proof.
  intros Hsub. induction Hsub as [|x sub l Hsub IH|x sub l Hsub IH];
    intros Hsorted; simpl.
  - constructor.
  - inversion Hsorted as [|? ? Hrest Hall]; subst. specialize (IH Hrest).
    destruct (insert_by_created_at_split x (order_by_created_at l))
      as (l1 & l2 & Hl & -> & Hl1).
    rewrite Hl in IH.
    apply (Subsequence_app [] l1 (x :: sub) (x :: l2)).
    + apply Subsequence_nil_l.
    + constructor. exact (Subsequence_past_older x sub l1 l2 Hl1 Hall IH).
  - specialize (IH Hsorted).
    destruct (insert_by_created_at_split x (order_by_created_at l))
      as (l1 & l2 & Hl & -> & _).
    rewrite Hl in IH. apply Subsequence_middle. exact IH.
Qed.

(** A POST /orders that answers [{success: true, orderId}] has appended
    one row; [orderId] is the row's rowid as a JavaScript number, and the
    rowid is above all that were handed out. *)
Lemma post_orders_success {RT : Runtime} (cfg : config) (now : Z) (st st1 : store)
    (items details : option json) (orderId : Z) :
  handle cfg now st (POST_orders items details)
    = (st1, {| res_status := 200; res_body := JsonOrderCreated orderId |}) ->
  exists rowid,
    orderId = lastID rowid
    /\ orders st1
       = orders st ++
           [{| ord_id := rowid;
               ord_items := option_map JSON_stringify items;
               ord_details := option_map JSON_stringify details;
               ord_created_at := CURRENT_TIMESTAMP now |}]
    /\ orders_seq st < rowid
    /\ orders_seq st1 = rowid.
Proof.
  simpl. unfold post_orders, insert_order.
  destruct (autoincrement _ _) as [id|m] eqn:Hauto; [|discriminate].
  intros [= <- <-]. apply autoincrement_fresh in Hauto. exists id. simpl. tauto.
Qed.

Lemma handle_orders_seq {RT : Runtime} (cfg : config) (now : Z) (st : store)
    (req : request) :
  orders_seq st <= orders_seq (fst (handle cfg now st req)).
Proof.
  pose proof (handle_orders_frame cfg now st req) as Hframe.
  destruct req; try (rewrite (proj2 Hframe); lia).
  simpl. unfold post_orders, insert_order.
  destruct (autoincrement _ _) as [id|m] eqn:Hauto; simpl; [|lia].
  apply autoincrement_fresh in Hauto. lia.
Qed.

Lemma run_orders_seq {RT : Runtime} (cfg : config) (reqs : list (Z * request))
    (st : store) :
  orders_seq st <= orders_seq (run cfg st reqs).
Proof.
  revert st. induction reqs as [|[now req] reqs IH]; intros st; simpl; [lia|].
  pose proof (handle_orders_seq cfg now st req).
  specialize (IH (fst (handle cfg now st req))). lia.
Qed.

Lemma CURRENT_TIMESTAMP_mono (t1 t2 : Z) :
  t1 <= t2 -> CURRENT_TIMESTAMP t1 <= CURRENT_TIMESTAMP t2.
Proof. intros Hle. unfold CURRENT_TIMESTAMP. apply Z.div_le_mono; lia. Qed.

(** C2.  Let POST /orders succeed for A, then for B, then for C, at clock
    readings that do not go back, with any requests before, between and
    after them.  GET /orders then answers 200 with all rows of the orders
    table, no row lost or repeated, oldest creation time first, and in
    that list the row of A comes before the row of B, which comes before
    the row of C; their rowids ascend, whatever gaps the rowids have, and
    each [orderId] answered is the rowid of its row as a JavaScript
    number. *)
Theorem get_orders_fifo {RT : Runtime} (cfg : config) (st stA stB stC : store)
    (tA tB tC now : Z)
    (itemsA detailsA itemsB detailsB itemsC detailsC : option json)
    (idA idB idC : Z) (reqs1 reqs2 reqs3 : list (Z * request)) :
  handle cfg tA st (POST_orders itemsA detailsA)
    = (stA, {| res_status := 200; res_body := JsonOrderCreated idA |}) ->
  handle cfg tB (run cfg stA reqs1) (POST_orders itemsB detailsB)
    = (stB, {| res_status := 200; res_body := JsonOrderCreated idB |}) ->
  handle cfg tC (run cfg stB reqs2) (POST_orders itemsC detailsC)
    = (stC, {| res_status := 200; res_body := JsonOrderCreated idC |}) ->
  tA <= tB <= tC ->
  exists rows rowidA rowidB rowidC,
    handle cfg now (run cfg stC reqs3) GET_orders
      = (run cfg stC reqs3, {| res_status := 200; res_body := JsonOrders rows |})
    /\ Permutation rows (orders (run cfg stC reqs3))
    /\ StronglySorted created_le rows
    /\ (exists l1 l2 l3 l4,
          rows = l1 ++
                 {| ord_id := rowidA;
                    ord_items := option_map JSON_stringify itemsA;
                    ord_details := option_map JSON_stringify detailsA;
                    ord_created_at := CURRENT_TIMESTAMP tA |} :: l2 ++
                 {| ord_id := rowidB;
                    ord_items := option_map JSON_stringify itemsB;
                    ord_details := option_map JSON_stringify detailsB;
                    ord_created_at := CURRENT_TIMESTAMP tB |} :: l3 ++
                 {| ord_id := rowidC;
                    ord_items := option_map JSON_stringify itemsC;
                    ord_details := option_map JSON_stringify detailsC;
                    ord_created_at := CURRENT_TIMESTAMP tC |} :: l4)
    /\ rowidA < rowidB < rowidC
    /\ idA = lastID rowidA /\ idB = lastID rowidB /\ idC = lastID rowidC.
Proof.
  intros HA HB HC Hclock.
  apply post_orders_success in HA. destruct HA as (rA & HidA & HoA & _ & HsA).
  apply post_orders_success in HB. destruct HB as (rB & HidB & HoB & HltB & HsB).
  apply post_orders_success in HC. destruct HC as (rC & HidC & HoC & HltC & _).
  destruct (run_orders_prefix cfg reqs1 stA) as [x1 Hx1].
  destruct (run_orders_prefix cfg reqs2 stB) as [x2 Hx2].
  destruct (run_orders_prefix cfg reqs3 stC) as [x3 Hx3].
  pose proof (run_orders_seq cfg reqs1 stA) as Hseq1.
  pose proof (run_orders_seq cfg reqs2 stB) as Hseq2.
  exists (order_by_created_at (orders (run cfg stC reqs3))), rA, rB, rC.
  split; [reflexivity|].
  split; [symmetry; apply order_by_created_at_perm|].
  split; [apply order_by_created_at_sorted|].
  split; [|split; [lia|auto]].
  apply Subsequence_three. apply order_by_created_at_stable.
  - rewrite Hx3, HoC, Hx2, HoB, Hx1, HoA. rewrite <- !app_assoc. simpl.
    apply Subsequence_three_at.
  - pose proof (CURRENT_TIMESTAMP_mono tA tB (proj1 Hclock)) as HAB.
    pose proof (CURRENT_TIMESTAMP_mono tB tC (proj2 Hclock)) as HBC.
    repeat constructor; unfold created_le; simpl; lia.
Qed.

(** *** The schema's constraints hold in every store the service reaches *)

Lemma max_rowid_nonneg (ids : list Z) : 0 <= max_rowid ids.
Proof. induction ids as [|x ids IH]; simpl; lia. Qed.

Lemma StronglySorted_snoc (ids : list Z) (id : Z) :
  StronglySorted Z.lt ids -> Forall (fun i => i < id) ids ->
  StronglySorted Z.lt (ids ++ [id]).
Proof.
  induction ids as [|x ids IH]; intros Hs Hall; simpl.
  - repeat constructor.
  - apply StronglySorted_inv in Hs. destruct Hs as [Hs Hx].
    inversion Hall as [|? ? Hxid Hrest]; subst.
    constructor; [apply IH; assumption|].
    apply Forall_app. split; [exact Hx|]. repeat constructor. exact Hxid.
Qed.

Section RowidsOfATable.

Context {row : Type}.
Variable rowid : row -> Z.

Lemma rowids_ok_insert (seq id : Z) (rows : list row) (r : row) :
  rowids_ok seq (map rowid rows) ->
  autoincrement seq (map rowid rows) = DbOk id ->
  rowid r = id ->
  rowids_ok id (map rowid (rows ++ [r])).
Proof.
  intros [Hs Hrange] Hauto Hid.
  assert (Hpos : 0 < id).
  { unfold autoincrement in Hauto.
    destruct (MAX_ROWID <=? _); [discriminate|]. injection Hauto as <-.
    pose proof (max_rowid_nonneg (map rowid rows)). lia. }
  apply autoincrement_fresh in Hauto. destruct Hauto as (Hseq & Hfresh & _).
  rewrite map_app. simpl. rewrite Hid. split.
  - apply StronglySorted_snoc; [exact Hs|]. apply Forall_forall. exact Hfresh.
  - apply Forall_app. split; [|repeat constructor; lia].
    eapply Forall_impl; [|exact Hrange]. simpl. intros; lia.
Qed.

Lemma rowids_ok_delete (seq : Z) (keep : row -> bool) (rows : list row) :
  rowids_ok seq (map rowid rows) ->
  rowids_ok seq (map rowid (filter keep rows)).
Proof.
  unfold rowids_ok. induction rows as [|r rows IH]; intros [Hs Hrange];
    [split; constructor|].
  simpl in Hs, Hrange. apply StronglySorted_inv in Hs. destruct Hs as [Hs Hr].
  inversion Hrange as [|? ? Hr0 Hrest]; subst.
  destruct (IH (conj Hs Hrest)) as [IHs IHrange].
  simpl. destruct (keep r); [|split; assumption].
  simpl. split; [|constructor; assumption].
  constructor; [exact IHs|].
  rewrite Forall_forall in Hr |- *. intros i Hin. apply Hr.
  apply in_map_iff in Hin. destruct Hin as (x & <- & Hx).
  apply filter_In in Hx. apply in_map. tauto.
Qed.

End RowidsOfATable.

Lemma name_taken_names {RT : Runtime} (n : string) (rows : list category_row) :
  name_taken (Some n) rows = true <-> In n (category_names rows).
Proof.
  unfold category_names. simpl. rewrite existsb_exists, in_flat_map.
  split; intros (r & Hin & Hr); exists r; (split; [exact Hin|]);
    unfold text_column_eq in *; destruct (cat_name r) as [m|]; simpl in *;
    try discriminate; try contradiction.
  - apply String.eqb_eq in Hr. auto.
  - destruct Hr as [->|[]]. apply String.eqb_refl.
Qed.

Lemma category_names_delete (keep : category_row -> bool)
    (rows : list category_row) :
  NoDup (category_names rows) -> NoDup (category_names (filter keep rows)).
Proof.
  assert (Hincl : forall n l, In n (category_names (filter keep l)) ->
                              In n (category_names l)).
  { unfold category_names. intros n l. rewrite !in_flat_map.
    intros (r & Hin & Hr). apply filter_In in Hin. exists r. tauto. }
  induction rows as [|r rows IH]; intros Hnodup; [constructor|].
  change (category_names (r :: rows))
    with (match cat_name r with Some n => [n] | None => [] end
          ++ category_names rows) in Hnodup.
  simpl. destruct (keep r).
  - change (category_names (r :: filter keep rows))
      with (match cat_name r with Some n => [n] | None => [] end
            ++ category_names (filter keep rows)).
    destruct (cat_name r) as [n|]; simpl in *; [|auto].
    inversion Hnodup; subst. constructor; auto.
  - apply IH. eapply NoDup_app_remove_l. exact Hnodup.
Qed.

Lemma upload_single_wf {RT : Runtime} (now : Z) (st : store)
    (image : option file_part) :
  wf_store st -> wf_store (fst (upload_single now st image)).
Proof. intros [? ? ? ? ?]. destruct image; constructor; assumption. Qed.

(** Every request keeps the constraints of the schema. *)
Lemma handle_wf {RT : Runtime} (cfg : config) (now : Z) (st : store)
    (req : request) :
  wf_store st -> wf_store (fst (handle cfg now st req)).
Proof.
  intros Hwf. destruct req; simpl; try exact Hwf.
  - unfold post_categories.
    pose proof (upload_single_wf now st image Hwf) as Hwf1.
    destruct (upload_single now st image) as [st1 f]. simpl in Hwf1.
    unfold insert_category.
    destruct (autoincrement _ _) as [id|m] eqn:Hauto; [|exact Hwf1].
    destruct (name_taken name (categories st1)) eqn:Htaken; [exact Hwf1|].
    destruct Hwf1 as [Hc Hn Hp Ho Hs]. constructor; simpl; try assumption.
    + eapply rowids_ok_insert; eauto.
    + unfold category_names in *. rewrite flat_map_app. simpl.
      destruct name as [n|]; simpl; [|rewrite app_nil_r; exact Hn].
      apply NoDup_app; [exact Hn | repeat constructor; auto |].
      intros a Hin [<-|[]]. apply name_taken_names in Hin. congruence.
  - destruct Hwf as [Hc Hn Hp Ho Hs]. constructor; simpl; try assumption.
    + apply rowids_ok_delete. exact Hc.
    + apply category_names_delete. exact Hn.
  - destruct Hwf as [Hc Hn Hp Ho Hs]. constructor; simpl; try assumption.
    + apply rowids_ok_delete. exact Hc.
    + apply category_names_delete. exact Hn.
  - unfold get_products. destruct category as [c|]; [destruct (truthy c)|];
      exact Hwf.
  - unfold post_products.
    pose proof (upload_single_wf now st image Hwf) as Hwf1.
    destruct (upload_single now st image) as [st1 f]. simpl in Hwf1.
    unfold insert_product.
    destruct (autoincrement _ _) as [id|m] eqn:Hauto; [|exact Hwf1].
    destruct Hwf1 as [Hc Hn Hp Ho Hs]. constructor; simpl; try assumption.
    eapply rowids_ok_insert; eauto.
  - destruct Hwf as [Hc Hn Hp Ho Hs]. constructor; simpl; try assumption.
    apply rowids_ok_delete. exact Hp.
  - destruct Hwf as [Hc Hn Hp Ho Hs]. constructor; simpl; try assumption.
    apply rowids_ok_delete. exact Hp.
  - unfold post_orders, insert_order.
    destruct (autoincrement _ _) as [id|m] eqn:Hauto; [|exact Hwf].
    destruct Hwf as [Hc Hn Hp Ho Hs]. constructor; simpl; try assumption.
    eapply rowids_ok_insert; eauto.
  - destruct (post_status_leave_statement cfg now st status0) as [Hup _].
    simpl in Hup. pose proof (upsert_keys_unique _ _ _ Hup (wf_status_keys _ Hwf)).
    unfold post_status_leave, upsert_status_leave in *.
    destruct Hwf as [Hc Hn Hp Ho Hs].
    destruct (existsb _ _); constructor; simpl in *; assumption.
  - unfold get_uploads. destruct (find _ _); exact Hwf.
Qed.

Lemma empty_store_wf : wf_store empty_store.
Proof. repeat constructor. Qed.

(** A store the service can be in obeys the schema: rowids ascend without
    repeats, no category name occurs twice, no status key occurs twice. *)
Lemma reachable_wf {RT : Runtime} (cfg : config) (st : store) :
  reachable cfg st -> wf_store st.
Proof.
  induction 1 as [|now st req _ IH]; [exact empty_store_wf|].
  apply handle_wf. exact IH.
Qed.

(** C2 at work: the three orders of the example, A and B of the same
    second, on a table whose rowids have gaps and whose last row is stamped
    later than C. *)
Lemma get_orders_fifo_witness :
  exists rows rowidA rowidB rowidC,
    handle (RT := example_runtime) example_config 1700000105000
           (run (RT := example_runtime) example_config example_after_C
                [(1700000104000, POST_status_leave (Some "on leave"))])
           GET_orders
      = (run (RT := example_runtime) example_config example_after_C
             [(1700000104000, POST_status_leave (Some "on leave"))],
         {| res_status := 200; res_body := JsonOrders rows |})
    /\ Permutation rows
         (orders (run (RT := example_runtime) example_config example_after_C
                      [(1700000104000, POST_status_leave (Some "on leave"))]))
    /\ StronglySorted created_le rows
    /\ (exists l1 l2 l3 l4,
          rows = l1 ++
                 {| ord_id := rowidA; ord_items := Some "11";
                    ord_details := Some "1";
                    ord_created_at := 1700000100 |} :: l2 ++
                 {| ord_id := rowidB; ord_items := Some "22";
                    ord_details := Some "2";
                    ord_created_at := 1700000100 |} :: l3 ++
                 {| ord_id := rowidC; ord_items := Some "33";
                    ord_details := None;
                    ord_created_at := 1700000103 |} :: l4)
    /\ rowidA < rowidB < rowidC
    /\ 10 = lastID rowidA /\ 11 = lastID rowidB /\ 12 = lastID rowidC.
Proof.
  apply (get_orders_fifo (RT := example_runtime) example_config
           example_orders_store example_after_A example_after_B example_after_C
           1700000100100 1700000100900 1700000103000 1700000105000
           (Some 11) (Some 1) (Some 22) (Some 2) (Some 33) None
           10 11 12
           [(1700000100500, GET_orders)] []
           [(1700000104000, POST_status_leave (Some "on leave"))]).
  - reflexivity.
  - reflexivity.
  - reflexivity.
  - lia.
Defined.

(** The list GET /orders answers with in that example. *)
Example get_orders_example_evaluated :
  snd (handle (RT := example_runtime) example_config 1700000105000
         example_after_C GET_orders)
  = {| res_status := 200;
       res_body :=
         JsonOrders
           [ {| ord_id := 2; ord_items := Some "1"; ord_details := Some "2";
                ord_created_at := 1700000000 |};
             {| ord_id := 10; ord_items := Some "11"; ord_details := Some "1";
                ord_created_at := 1700000100 |};
             {| ord_id := 11; ord_items := Some "22"; ord_details := Some "2";
                ord_created_at := 1700000100 |};
             {| ord_id := 12; ord_items := Some "33"; ord_details := None;
                ord_created_at := 1700000103 |};
             {| ord_id := 7; ord_items := Some "3"; ord_details := None;
                ord_created_at := 1800000000 |} ] |}.
Proof. reflexivity. Qed.

(** The order is that of [created_at], not that of the rowids: were the
    clock set back between two orders, the later one would be listed first. *)
Example get_orders_follows_created_at :
  snd (handle (RT := example_runtime) example_config 9000
         (run (RT := example_runtime) example_config empty_store
            [(5000, POST_orders (RT := example_runtime) (Some 1) None);
             (3000, POST_orders (RT := example_runtime) (Some 2) None)])
         GET_orders)
  = {| res_status := 200;
       res_body :=
         JsonOrders
           [ {| ord_id := 2; ord_items := Some "2"; ord_details := None;
                ord_created_at := 3 |};
             {| ord_id := 1; ord_items := Some "1"; ord_details := None;
                ord_created_at := 5 |} ] |}.
Proof. reflexivity. Qed.

(** *** Static files *)

Lemma find_write_file (files : list (string * string)) (name content : string) :
  find (fun f => (fst f =? name)%string) (write_file files name content)
  = Some (name, content).
Proof.
  induction files as [|[n c] files IH]; simpl.
  - rewrite String.eqb_refl. reflexivity.
  - destruct (String.eqb_spec n name) as [Heq|Hne]; simpl.
    + rewrite String.eqb_refl. reflexivity.
    + destruct (String.eqb_spec n name); [contradiction|exact IH].
Qed.

(** The file of a POST /products is served under the name the image URL
    ends in. *)
Lemma uploaded_image_is_served {RT : Runtime} (cfg : config) (now now' : Z)
    (st : store) (name description price category : option string)
    (file : file_part) :
  snd (handle cfg now'
         (fst (handle cfg now st
                 (POST_products name description price category (Some file))))
         (GET_uploads (number_to_string now ++ path_extname (originalname file))%string))
  = {| res_status := 200; res_body := FileBody (file_content file) |}.
Proof.
  simpl. unfold post_products, upload_single, insert_product.
  destruct (autoincrement _ _); simpl; unfold get_uploads; simpl;
    unfold multer_filename; rewrite find_write_file; reflexivity.
Qed.

(** *** The earlier server file *)

(** On every route but the two uploads and the health check the earlier
    file does what [server.js] does. *)
Lemma part_000_handle_agrees {RT : Runtime} (cfg : config) (now : Z)
    (st : store) (req : request) :
  match req with
  | POST_categories _ _ | POST_products _ _ _ _ _ | GET_root => True
  | _ => Part000.handle now st req = handle cfg now st req
  end.
Proof. destruct req; try exact I; reflexivity. Qed.

(** Its POST /categories refuses a name that is taken the way [server.js]
    does: status 200, [{success: false, error}], the table untouched. *)
Lemma part_000_post_categories_duplicate {RT : Runtime} (now : Z) (st : store)
    (N : string) (row : category_row) (image : option file_part) :
  In row (categories st) ->
  cat_name row = Some N ->
  exists error,
    snd (Part000.handle now st (POST_categories (Some N) image))
      = {| res_status := 200; res_body := JsonFailure error |}
    /\ categories (fst (Part000.handle now st (POST_categories (Some N) image)))
       = categories st.
Proof.
  intros Hin Hname. simpl. unfold Part000.post_categories.
  pose proof (upload_single_categories now st image) as [Hcat _].
  destruct (upload_single now st image) as [st1 req_file]. simpl in Hcat.
  assert (Hin1 : In row (categories st1)) by (rewrite Hcat; exact Hin).
  destruct (insert_category_duplicate st1 N row (Part000.image_url req_file)
              Hin1 Hname) as [error Herr].
  rewrite Herr. exists error. simpl. auto.
Qed.

(** Its POST /products stores the image as ["/uploads/" + filename], with
    no base URL in front, and answers with the rowid alone. *)
Lemma part_000_post_products_image {RT : Runtime} (now : Z) (st : store)
    (name description price category : option string) (file : file_part) :
  rowids_left (products_seq st) (map prod_id (products st)) ->
  exists productId,
    snd (Part000.handle now st
           (POST_products name description price category (Some file)))
      = {| res_status := 200; res_body := JsonProductId (lastID productId) |}
    /\ products (fst (Part000.handle now st
                        (POST_products name description price category
                                       (Some file))))
       = products st ++
           [{| prod_id := productId; prod_name := name;
               prod_description := description;
               prod_price := price_cell price;
               prod_image :=
                 Some ("/uploads/" ++ number_to_string now ++
                       path_extname (originalname file))%string;
               prod_category := category |}].
Proof.
  intros Hleft. pose proof (autoincrement_ok _ _ Hleft) as Hauto.
  exists (Z.max (products_seq st) (max_rowid (map prod_id (products st))) + 1).
  simpl. unfold Part000.post_products, insert_product. simpl. rewrite Hauto.
  split; reflexivity.
Qed.

(** ** Further properties of the handlers *)

(** *** Reads and failures *)

(** X1.  The six GET routes (the categories, the products with or without
    a category, the orders, the leave status, the health check and a static
    file) answer without changing anything in the store. *)
Theorem get_routes_read_only {RT : Runtime} (cfg : config) (now : Z) (st : store)
    (req : request) :
  match req with
  | GET_categories | GET_products _ | GET_orders | GET_status_leave
  | GET_root | GET_uploads _ => fst (handle cfg now st req) = st
  | _ => True
  end.
Proof.
  destruct req; simpl; try exact I; try reflexivity.
  - unfold get_products. destruct category as [c|]; [destruct (truthy c)|];
      reflexivity.
  - unfold get_uploads. destruct (find _ _); reflexivity.
Qed.

(** X2.  A request that is answered with a status other than 200 has
    changed nothing in the store. *)
Theorem failed_request_keeps_store {RT : Runtime} (cfg : config) (now : Z)
    (st : store) (req : request) :
  res_status (snd (handle cfg now st req)) <> 200 ->
  fst (handle cfg now st req) = st.
Proof.
  destruct req; simpl; intros Hcode; try reflexivity;
    try (exfalso; apply Hcode; reflexivity).
  - exfalso. apply Hcode. unfold post_categories.
    destruct (upload_single now st image) as [st1 f].
    destruct (insert_category _ _ _) as [[st2 id]|m]; reflexivity.
  - unfold get_products in *. destruct category as [c|]; [destruct (truthy c)|];
      reflexivity.
  - exfalso. apply Hcode. unfold post_products.
    destruct (upload_single now st image) as [st1 f].
    destruct (insert_product _ _ _ _ _ _) as [[st2 id]|m]; reflexivity.
  - unfold post_orders in *.
    destruct (insert_order _ _ _ _) as [[st1 id]|m]; simpl in *;
      [exfalso; apply Hcode|]; reflexivity.
  - exfalso. apply Hcode. unfold post_status_leave, upsert_status_leave.
    destruct (existsb _ _); reflexivity.
  - unfold get_uploads in *. destruct (find _ _); reflexivity.
Qed.

(** X2 at work: an order refused for want of a rowid. *)
Lemma failed_request_keeps_store_witness :
  fst (handle (RT := example_runtime) example_config 1700000000123
         example_full_store
         (POST_orders (RT := example_runtime) (Some 1) (Some 2)))
  = example_full_store.
Proof.
  apply (failed_request_keeps_store (RT := example_runtime) example_config
           1700000000123 example_full_store
           (POST_orders (RT := example_runtime) (Some 1) (Some 2))).
  simpl. discriminate.
Defined.

(** X3.  An INSERT the store refuses is answered by POST /categories and
    POST /products with status 200 and [{success: false, error}], the
    error being the store's message, and by POST /orders with status 500
    and [{error}]: so it is when the table has handed out its last rowid,
    and for a category whose name is taken.  The two upload routes never
    answer with another status than 200, and after [{success: false}] the
    table of the route has the rows and the sequence it had. *)
Theorem insert_error_statuses {RT : Runtime} (cfg : config) (now : Z)
    (st : store) (name description price category : option string)
    (image : option file_part) (items details : option json) :
  (res_status (snd (handle cfg now st (POST_categories name image))) = 200
   /\ (MAX_ROWID <= Z.max (categories_seq st)
                          (max_rowid (map cat_id (categories st))) ->
       snd (handle cfg now st (POST_categories name image))
       = {| res_status := 200;
            res_body := JsonFailure "SQLITE_FULL: database or disk is full" |})
   /\ (rowids_left (categories_seq st) (map cat_id (categories st)) ->
       name_taken name (categories st) = true ->
       snd (handle cfg now st (POST_categories name image))
       = {| res_status := 200;
            res_body :=
              JsonFailure
                "SQLITE_CONSTRAINT: UNIQUE constraint failed: categories.name" |})
   /\ (forall error,
         res_body (snd (handle cfg now st (POST_categories name image)))
         = JsonFailure error ->
         categories (fst (handle cfg now st (POST_categories name image)))
         = categories st
         /\ categories_seq (fst (handle cfg now st (POST_categories name image)))
            = categories_seq st))
  /\ (res_status (snd (handle cfg now st
                         (POST_products name description price category image)))
      = 200
      /\ (MAX_ROWID <= Z.max (products_seq st)
                             (max_rowid (map prod_id (products st))) ->
          snd (handle cfg now st
                 (POST_products name description price category image))
          = {| res_status := 200;
               res_body := JsonFailure "SQLITE_FULL: database or disk is full" |})
      /\ (forall error,
            res_body (snd (handle cfg now st
                             (POST_products name description price category
                                            image)))
            = JsonFailure error ->
            products (fst (handle cfg now st
                             (POST_products name description price category
                                            image)))
            = products st
            /\ products_seq (fst (handle cfg now st
                                    (POST_products name description price
                                                   category image)))
               = products_seq st))
  /\ (MAX_ROWID <= Z.max (orders_seq st) (max_rowid (map ord_id (orders st))) ->
      handle cfg now st (POST_orders items details)
      = (st, {| res_status := 500;
                res_body := JsonError "SQLITE_FULL: database or disk is full" |})).
Proof.
  assert (Hfull : forall seq ids,
             MAX_ROWID <= Z.max seq (max_rowid ids) ->
             autoincrement seq ids = DbErr "SQLITE_FULL: database or disk is full").
  { intros seq ids Hle. unfold autoincrement.
    destruct (Z.leb_spec MAX_ROWID (Z.max seq (max_rowid ids))); [reflexivity|lia]. }
  split; [|split].
  - pose proof (upload_single_categories now st image) as [Hc Hs].
    simpl. unfold post_categories, insert_category.
    destruct (upload_single now st image) as [st1 f]. simpl in Hc, Hs.
    rewrite Hc, Hs. split; [|split; [|split]].
    + destruct (autoincrement _ _); [destruct (name_taken _ _)|]; reflexivity.
    + intros Hle. rewrite (Hfull _ _ Hle). reflexivity.
    + intros Hleft Htaken. rewrite (autoincrement_ok _ _ Hleft), Htaken.
      reflexivity.
    + intros error. destruct (autoincrement _ _); [destruct (name_taken _ _)|];
        simpl; try discriminate; auto.
  - pose proof (upload_single_products now st image) as [Hp Hs].
    simpl. unfold post_products, insert_product.
    destruct (upload_single now st image) as [st1 f]. simpl in Hp, Hs.
    rewrite Hp, Hs. split; [|split].
    + destruct (autoincrement _ _); reflexivity.
    + intros Hle. rewrite (Hfull _ _ Hle). reflexivity.
    + intros error. destruct (autoincrement _ _); simpl; try discriminate; auto.
  - intros Hle. simpl. unfold post_orders, insert_order.
    rewrite (Hfull _ _ Hle). reflexivity.
Qed.

(** X3 at work: an order on the store whose orders table is full. *)
Lemma insert_error_statuses_witness :
  handle (RT := example_runtime) example_config 1700000000123 example_full_store
    (POST_orders (RT := example_runtime) (Some 1) (Some 2))
  = (example_full_store,
     {| res_status := 500;
        res_body := JsonError "SQLITE_FULL: database or disk is full" |}).
Proof.
  apply (insert_error_statuses (RT := example_runtime) example_config
           1700000000123 example_full_store None None None None None
           (Some 1) (Some 2)).
  simpl. discriminate.
Defined.

(** *** Uploaded files *)

Lemma write_file_names (files : list (string * string)) (name content n : string) :
  In n (map fst files) -> In n (map fst (write_file files name content)).
Proof.
  induction files as [|[m c] files IH]; simpl; [tauto|].
  destruct (String.eqb_spec m name) as [->|Hne]; simpl; tauto.
Qed.

Lemma write_file_other (files : list (string * string)) (name content n : string) :
  n <> name ->
  find (fun f => (fst f =? n)%string) (write_file files name content)
  = find (fun f => (fst f =? n)%string) files.
Proof.
  intros Hne. induction files as [|[m c] files IH]; simpl.
  - destruct (String.eqb_spec name n); [congruence|reflexivity].
  - destruct (String.eqb_spec m name) as [->|Hm]; simpl.
    + destruct (String.eqb_spec name n); [congruence|reflexivity].
    + rewrite IH. reflexivity.
Qed.

(** The store after the middleware and after the handler holds the same
    files. *)
Lemma post_categories_uploads {RT : Runtime} (cfg : config) (now : Z)
    (st : store) (name : option string) (image : option file_part) :
  uploads (fst (post_categories cfg now st name image))
  = uploads (fst (upload_single now st image)).
Proof.
  unfold post_categories. destruct (upload_single now st image) as [st1 f].
  unfold insert_category. destruct (autoincrement _ _); [|reflexivity].
  destruct (name_taken _ _); reflexivity.
Qed.

Lemma post_products_uploads {RT : Runtime} (cfg : config) (now : Z)
    (st : store) (name description price category : option string)
    (image : option file_part) :
  uploads (fst (post_products cfg now st name description price category image))
  = uploads (fst (upload_single now st image)).
Proof.
  unfold post_products. destruct (upload_single now st image) as [st1 f].
  unfold insert_product. destruct (autoincrement _ _); reflexivity.
Qed.

(** A request without a file leaves the directory as it is. *)
Lemma handle_uploads_frame {RT : Runtime} (cfg : config) (now : Z) (st : store)
    (req : request) :
  match req with
  | POST_categories _ (Some _) | POST_products _ _ _ _ (Some _) => True
  | _ => uploads (fst (handle cfg now st req)) = uploads st
  end.
Proof.
  destruct req; simpl; try reflexivity.
  - destruct image; [exact I|]. apply post_categories_uploads.
  - unfold get_products. destruct category as [c|]; [destruct (truthy c)|];
      reflexivity.
  - destruct image; [exact I|]. apply post_products_uploads.
  - unfold post_orders, insert_order. destruct (autoincrement _ _); reflexivity.
  - unfold post_status_leave, upsert_status_leave.
    destruct (existsb _ _); reflexivity.
  - unfold get_uploads. destruct (find _ _); reflexivity.
Qed.

Lemma handle_uploads_names {RT : Runtime} (cfg : config) (now : Z) (st : store)
    (req : request) (n : string) :
  In n (map fst (uploads st)) ->
  In n (map fst (uploads (fst (handle cfg now st req)))).
Proof.
  intros Hin. pose proof (handle_uploads_frame cfg now st req) as Hframe.
  destruct req; try (rewrite Hframe; exact Hin).
  - simpl. rewrite post_categories_uploads.
    destruct image; [|exact Hin]. simpl. apply write_file_names. exact Hin.
  - simpl. rewrite post_products_uploads.
    destruct image; [|exact Hin]. simpl. apply write_file_names. exact Hin.
Qed.

(** X4.  No route removes a file of the uploads directory: a file name that
    is there before a list of requests, deletes of categories and products
    included, is there after it; only a POST /categories or POST /products
    that carries a file writes to the directory at all. *)
Theorem uploaded_files_are_never_removed {RT : Runtime} (cfg : config)
    (now : Z) (st : store) (req : request) (reqs : list (Z * request)) :
  match req with
  | POST_categories _ (Some _) | POST_products _ _ _ _ (Some _) => True
  | _ => uploads (fst (handle cfg now st req)) = uploads st
  end
  /\ (forall n, In n (map fst (uploads st)) ->
                In n (map fst (uploads (run cfg st reqs)))).
Proof.
  split; [apply handle_uploads_frame|].
  revert st. induction reqs as [|[t r] reqs IH]; intros st n Hin; simpl.
  - exact Hin.
  - apply IH. apply handle_uploads_names. exact Hin.
Qed.

(** X5.  The upload is stored before the INSERT is tried: when POST
    /categories is refused because the name is taken, the file it carried
    is in the uploads directory all the same and is served under its
    generated name. *)
Theorem refused_category_keeps_its_file {RT : Runtime} (cfg : config)
    (now now' : Z) (st : store) (N : string) (row : category_row)
    (file : file_part) :
  In row (categories st) ->
  cat_name row = Some N ->
  (exists error,
     snd (handle cfg now st (POST_categories (Some N) (Some file)))
     = {| res_status := 200; res_body := JsonFailure error |})
  /\ snd (handle cfg now'
            (fst (handle cfg now st (POST_categories (Some N) (Some file))))
            (GET_uploads (number_to_string now ++
                          path_extname (originalname file))%string))
     = {| res_status := 200; res_body := FileBody (file_content file) |}.
Proof.
  intros Hin Hname. split.
  - simpl. unfold post_categories.
    pose proof (upload_single_categories now st (Some file)) as [Hcat _].
    destruct (upload_single now st (Some file)) as [st1 req_file]. simpl in Hcat.
    rewrite <- Hcat in Hin.
    destruct (insert_category_duplicate st1 N row (image_url cfg req_file)
                Hin Hname) as [error Herr].
    rewrite Herr. exists error. reflexivity.
  - simpl. unfold get_uploads. rewrite post_categories_uploads. simpl.
    unfold multer_filename. rewrite find_write_file. reflexivity.
Qed.

(** X5 at work: "Dairy" posted again to the example store, with a picture. *)
Lemma refused_category_keeps_its_file_witness :
  (exists error,
     snd (handle (RT := example_runtime) example_config 1700000000555
            example_store
            (POST_categories (Some "Dairy")
               (Some {| originalname := "cow.jpg"; file_content := "jpg bytes" |})))
     = {| res_status := 200; res_body := JsonFailure error |})
  /\ snd (handle (RT := example_runtime) example_config 1700000000999
            (fst (handle (RT := example_runtime) example_config 1700000000555
                    example_store
                    (POST_categories (Some "Dairy")
                       (Some {| originalname := "cow.jpg";
                                file_content := "jpg bytes" |}))))
            (GET_uploads
               (number_to_string 1700000000555 ++
                path_extname (Runtime := example_runtime)
                  (originalname {| originalname := "cow.jpg";
                                   file_content := "jpg bytes" |}))%string))
     = {| res_status := 200; res_body := FileBody "jpg bytes" |}.
Proof.
  apply (refused_category_keeps_its_file (RT := example_runtime) example_config
           1700000000555 1700000000999 example_store "Dairy"
           {| cat_id := 1; cat_name := Some "Dairy"; cat_image := None |}
           {| originalname := "cow.jpg"; file_content := "jpg bytes" |}).
  - simpl. left. reflexivity.
  - reflexivity.
Defined.

(** *** Generated file names *)

(** The decimal digits of a clock reading determine it. *)
Lemma number_to_string_inj (a b : Z) :
  number_to_string a = number_to_string b -> a = b.
Proof.
  unfold number_to_string. intros Heq.
  assert (Hread : forall z, NilZero.int_of_string (NilZero.string_of_int (Z.to_int z))
                            = Some (Z.to_int z)).
  { intros z. apply NilZero.isi;
      destruct z; simpl; intros [= H];
      try discriminate; exact (Unsigned.to_uint_nonnil _ H). }
  pose proof (Hread a) as Ha. rewrite Heq, Hread in Ha.
  injection Ha as Ha. apply to_int_inj. symmetry. exact Ha.
Qed.

Lemma append_length (a b : string) :
  String.length (a ++ b)%string = (String.length a + String.length b)%nat.
Proof. induction a as [|c a IH]; simpl; [reflexivity|]. rewrite IH. reflexivity. Qed.

Lemma append_cancel_r (a b e : string) : (a ++ e)%string = (b ++ e)%string -> a = b.
Proof.
  revert b. induction a as [|c a IH]; intros [|d b] Heq; simpl in *.
  - reflexivity.
  - apply (f_equal String.length) in Heq. simpl in Heq.
    rewrite append_length in Heq. lia.
  - apply (f_equal String.length) in Heq. simpl in Heq.
    rewrite append_length in Heq. lia.
  - injection Heq as -> Heq. f_equal. apply IH. exact Heq.
Qed.

Lemma multer_filename_same_extension {RT : Runtime} (t1 t2 : Z)
    (f1 f2 : file_part) :
  path_extname (originalname f1) = path_extname (originalname f2) ->
  (multer_filename t1 f1 = multer_filename t2 f2 <-> t1 = t2).
Proof.
  intros Hext. unfold multer_filename. rewrite Hext. split.
  - intros Heq. apply number_to_string_inj. eapply append_cancel_r. exact Heq.
  - intros ->. reflexivity.
Qed.

(** X6.  Two uploads whose original names have the same extension get the
    same stored file name exactly when they are taken at the same
    millisecond of the clock. *)
Theorem multer_filename_collision {RT : Runtime} (t1 t2 : Z)
    (f1 f2 : file_part) :
  path_extname (originalname f1) = path_extname (originalname f2) ->
  (number_to_string t1 ++ path_extname (originalname f1))%string
  = (number_to_string t2 ++ path_extname (originalname f2))%string
  <-> t1 = t2.
Proof. exact (multer_filename_same_extension t1 t2 f1 f2). Qed.

(** X6 at work: two PNG files. *)
Lemma multer_filename_collision_witness :
  (number_to_string 1700000000123 ++
   path_extname (Runtime := example_runtime)
     (originalname {| originalname := "milk.png"; file_content := "a" |}))%string
  = (number_to_string 1700000000124 ++
     path_extname (Runtime := example_runtime)
       (originalname {| originalname := "curd.png"; file_content := "b" |}))%string
  <-> 1700000000123 = 1700000000124.
Proof.
  apply (multer_filename_collision (RT := example_runtime)
           1700000000123 1700000000124
           {| originalname := "milk.png"; file_content := "a" |}
           {| originalname := "curd.png"; file_content := "b" |}).
  reflexivity.
Defined.

(** X7.  Let two POST /products carry files of the same extension.  Served
    at the same millisecond, the second file replaces the first: the name
    both image URLs end in then serves the content of the second.  Served
    at different milliseconds, the first file stays as it was uploaded. *)
Theorem second_upload_of_the_millisecond_wins {RT : Runtime} (cfg : config)
    (t1 t2 now : Z) (st : store)
    (name1 description1 price1 category1 : option string)
    (name2 description2 price2 category2 : option string)
    (f1 f2 : file_part) :
  path_extname (originalname f1) = path_extname (originalname f2) ->
  snd (handle cfg now
         (fst (handle cfg t2
                 (fst (handle cfg t1 st
                         (POST_products name1 description1 price1 category1
                                        (Some f1))))
                 (POST_products name2 description2 price2 category2 (Some f2))))
         (GET_uploads (number_to_string t1 ++
                       path_extname (originalname f1))%string))
  = {| res_status := 200;
       res_body := FileBody (if t1 =? t2 then file_content f2
                             else file_content f1) |}.
Proof.
  intros Hext.
  change (handle cfg now ?s (GET_uploads ?n)) with (get_uploads s n).
  unfold get_uploads.
  change (handle cfg t2 ?s (POST_products ?a ?b ?c ?d ?i))
    with (post_products cfg t2 s a b c d i).
  rewrite post_products_uploads.
  change (handle cfg t1 ?s (POST_products ?a ?b ?c ?d ?i))
    with (post_products cfg t1 s a b c d i).
  cbn [upload_single fst uploads set_uploads].
  rewrite post_products_uploads. cbn [upload_single fst uploads set_uploads].
  fold (multer_filename t1 f1).
  destruct (Z.eqb_spec t1 t2) as [<-|Hne].
  - assert (Hsame : multer_filename t1 f2 = multer_filename t1 f1).
    { apply multer_filename_same_extension; [symmetry; exact Hext|reflexivity]. }
    rewrite Hsame, find_write_file. reflexivity.
  - rewrite write_file_other.
    + rewrite find_write_file. reflexivity.
    + intros Heq. apply Hne. eapply multer_filename_same_extension; eassumption.
Qed.

(** X7 at work: two PNG files within the millisecond 1700000000123. *)
Lemma second_upload_of_the_millisecond_wins_witness :
  snd (handle (RT := example_runtime) example_config 1700000000999
         (fst (handle (RT := example_runtime) example_config 1700000000123
                 (fst (handle (RT := example_runtime) example_config 1700000000123
                         example_store
                         (POST_products (Some "Milk") None (Some "30") None
                            (Some {| originalname := "milk.png";
                                     file_content := "first" |}))))
                 (POST_products (Some "Curd") None (Some "25") None
                    (Some {| originalname := "curd.png";
                             file_content := "second" |}))))
         (GET_uploads
            (number_to_string 1700000000123 ++
             path_extname (Runtime := example_runtime)
               (originalname {| originalname := "milk.png";
                                file_content := "first" |}))%string))
  = {| res_status := 200;
       res_body :=
         FileBody (if 1700000000123 =? 1700000000123
                   then file_content {| originalname := "curd.png";
                                        file_content := "second" |}
                   else file_content {| originalname := "milk.png";
                                        file_content := "first" |}) |}.
Proof.
  apply (second_upload_of_the_millisecond_wins (RT := example_runtime)
           example_config 1700000000123 1700000000123 1700000000999 example_store
           (Some "Milk") None (Some "30") None (Some "Curd") None (Some "25") None
           {| originalname := "milk.png"; file_content := "first" |}
           {| originalname := "curd.png"; file_content := "second" |}).
  reflexivity.
Defined.

(** *** Creating categories *)

Lemma insert_category_ok {RT : Runtime} (st : store) (name image : option string) :
  rowids_left (categories_seq st) (map cat_id (categories st)) ->
  name_taken name (categories st) = false ->
  insert_category st name image
  = DbOk (set_categories st
            (categories st ++
               [{| cat_id := Z.max (categories_seq st)
                                   (max_rowid (map cat_id (categories st))) + 1;
                   cat_name := name; cat_image := image |}])
            (Z.max (categories_seq st) (max_rowid (map cat_id (categories st))) + 1),
          Z.max (categories_seq st) (max_rowid (map cat_id (categories st))) + 1).
Proof.
  intros Hleft Hfree. unfold insert_category.
  rewrite (autoincrement_ok _ _ Hleft), Hfree. reflexivity.
Qed.

(** X8.  POST /categories with a name no row has (or with no name), on a
    table that can take a row, answers 200 [{success: true, id, image}] and
    appends one row to the table, under a rowid above every rowid of the
    table; [id] is that rowid as a JavaScript number.  GET /categories then
    lists the rows of before, in their order, followed by the new row,
    whose image is the URL of the uploaded file, or null without a file. *)
Theorem post_categories_then_get {RT : Runtime} (cfg : config) (now now' : Z)
    (st : store) (name : option string) (image : option file_part) :
  rowids_left (categories_seq st) (map cat_id (categories st)) ->
  name_taken name (categories st) = false ->
  exists rowid,
    snd (handle cfg now st (POST_categories name image))
      = {| res_status := 200;
           res_body :=
             JsonCategoryCreated (lastID rowid)
               (option_map
                  (fun file => (BACKEND_URL cfg ++ "/uploads/" ++
                                number_to_string now ++
                                path_extname (originalname file))%string)
                  image) |}
    /\ (forall r, In r (categories st) -> cat_id r < rowid)
    /\ categories (fst (handle cfg now st (POST_categories name image)))
       = categories st ++
           [{| cat_id := rowid; cat_name := name;
               cat_image :=
                 option_map
                   (fun file => (BACKEND_URL cfg ++ "/uploads/" ++
                                 number_to_string now ++
                                 path_extname (originalname file))%string)
                   image |}]
    /\ snd (handle cfg now' (fst (handle cfg now st (POST_categories name image)))
              GET_categories)
       = {| res_status := 200;
            res_body :=
              JsonCategories
                (categories st ++
                   [{| cat_id := rowid; cat_name := name;
                       cat_image :=
                         option_map
                           (fun file => (BACKEND_URL cfg ++ "/uploads/" ++
                                         number_to_string now ++
                                         path_extname (originalname file))%string)
                           image |}]) |}.
Proof.
  intros Hleft Hfree.
  exists (Z.max (categories_seq st) (max_rowid (map cat_id (categories st))) + 1).
  pose proof (upload_single_categories now st image) as [Hcat Hseq].
  pose proof (upload_single_filename now st image) as Hfile.
  assert (Hurl : image_url cfg (option_map (multer_filename now) image)
                 = option_map
                     (fun file => (BACKEND_URL cfg ++ "/uploads/" ++
                                   number_to_string now ++
                                   path_extname (originalname file))%string)
                     image) by (destruct image; reflexivity).
  simpl. unfold post_categories.
  destruct (upload_single now st image) as [st1 req_file].
  simpl in Hcat, Hseq, Hfile. subst req_file.
  rewrite insert_category_ok by (rewrite Hcat, ?Hseq; assumption).
  rewrite Hcat, Hseq, Hurl. simpl.
  split; [reflexivity|]. split; [|split; reflexivity].
  intros r Hin. pose proof (max_rowid_upper _ _ (in_map cat_id _ _ Hin)). lia.
Qed.

(** X8 at work: "Spices" added to the example store. *)
Lemma post_categories_then_get_witness :
  exists rowid,
    snd (handle (RT := example_runtime) example_config 1700000000123
           example_store (POST_categories (Some "Spices") None))
      = {| res_status := 200;
           res_body :=
             JsonCategoryCreated (lastID rowid)
               (option_map
                  (fun file => (BACKEND_URL example_config ++ "/uploads/" ++
                                number_to_string 1700000000123 ++
                                path_extname (Runtime := example_runtime)
                                             (originalname file))%string)
                  None) |}
    /\ (forall r, In r (categories example_store) -> cat_id r < rowid)
    /\ categories (fst (handle (RT := example_runtime) example_config
                          1700000000123 example_store
                          (POST_categories (Some "Spices") None)))
       = categories example_store ++
           [{| cat_id := rowid; cat_name := Some "Spices";
               cat_image :=
                 option_map
                   (fun file => (BACKEND_URL example_config ++ "/uploads/" ++
                                 number_to_string 1700000000123 ++
                                 path_extname (Runtime := example_runtime)
                                              (originalname file))%string)
                   None |}]
    /\ snd (handle (RT := example_runtime) example_config 1700000000999
              (fst (handle (RT := example_runtime) example_config 1700000000123
                      example_store (POST_categories (Some "Spices") None)))
              GET_categories)
       = {| res_status := 200;
            res_body :=
              JsonCategories
                (categories example_store ++
                   [{| cat_id := rowid; cat_name := Some "Spices";
                       cat_image :=
                         option_map
                           (fun file => (BACKEND_URL example_config ++ "/uploads/" ++
                                         number_to_string 1700000000123 ++
                                         path_extname (Runtime := example_runtime)
                                                      (originalname file))%string)
                           None |}]) |}.
Proof.
  apply (post_categories_then_get (RT := example_runtime) example_config
           1700000000123 1700000000999 example_store (Some "Spices") None).
  - unfold rowids_left. simpl. reflexivity.
  - reflexivity.
Defined.

(** A JavaScript number below 2^53 is the integer it was made from. *)
Lemma round_to_double_large (z : Z) :
  2 ^ 53 <= z -> 2 ^ 53 <= round_to_double z.
Proof.
  intros Hz. unfold round_to_double.
  rewrite (Z.abs_eq z) by lia.
  destruct (Z.ltb_spec z (2 ^ 53)) as [Hlt|_]; [lia|].
  rewrite (Z.sgn_pos z) by lia. rewrite Z.mul_1_l.
  assert (Hlog : 53 <= Z.log2 z).
  { change 53 with (Z.log2 (2 ^ 53)). apply Z.log2_le_mono. exact Hz. }
  set (e := Z.log2 z - 52).
  assert (He : 0 < e) by (subst e; lia).
  assert (Hpow : 0 < 2 ^ e) by (apply Z.pow_pos_nonneg; lia).
  assert (Hsplit : 2 ^ Z.log2 z = 2 ^ 52 * 2 ^ e).
  { rewrite <- Z.pow_add_r by lia. f_equal. subst e. lia. }
  assert (Hq : 2 ^ 52 <= z / 2 ^ e).
  { apply Z.div_le_lower_bound; [exact Hpow|].
    rewrite Z.mul_comm, <- Hsplit. apply Z.log2_spec. lia. }
  assert (Hmono : 2 ^ 53 <= 2 ^ Z.log2 z).
  { apply Z.pow_le_mono_r; lia. }
  set (q := z / 2 ^ e) in *.
  destruct ((2 ^ (e - 1) <? z mod 2 ^ e)
            || ((z mod 2 ^ e =? 2 ^ (e - 1)) && Z.odd q))%bool; nia.
Qed.

Lemma lastID_below_2_53 (rowid : Z) :
  0 <= rowid -> lastID rowid < 2 ^ 53 -> lastID rowid = rowid.
Proof.
  intros Hpos Hlt. unfold lastID in *.
  destruct (Z.lt_ge_cases rowid (2 ^ 53)) as [Hsmall|Hlarge].
  - apply round_to_double_exact. lia.
  - pose proof (round_to_double_large rowid Hlarge). lia.
Qed.

(** A POST /categories that answers [{success: true, id}] has taken a rowid
    above the sequence of before; [id] is that rowid as a JavaScript
    number. *)
Lemma post_categories_success {RT : Runtime} (cfg : config) (now : Z)
    (st : store) (name : option string) (image : option file_part)
    (id : Z) (url : option string) :
  snd (handle cfg now st (POST_categories name image))
    = {| res_status := 200; res_body := JsonCategoryCreated id url |} ->
  exists rowid,
    id = lastID rowid /\ 0 < rowid
    /\ categories_seq st < rowid
    /\ categories_seq (fst (handle cfg now st (POST_categories name image)))
       = rowid.
Proof.
  simpl. unfold post_categories.
  pose proof (upload_single_categories now st image) as [_ Hseq].
  destruct (upload_single now st image) as [st1 f]. simpl in Hseq.
  unfold insert_category.
  destruct (autoincrement _ _) as [i|m] eqn:Hauto; [|discriminate].
  destruct (name_taken _ _); [discriminate|]. simpl. intros [= <- _].
  exists i. split; [reflexivity|].
  assert (Hpos : 0 < i).
  { unfold autoincrement in Hauto. destruct (MAX_ROWID <=? _); [discriminate|].
    injection Hauto as <-.
    assert (0 <= max_rowid (map cat_id (categories st1))).
    { induction (map cat_id (categories st1)) as [|x l IH]; simpl; lia. }
    lia. }
  apply autoincrement_fresh in Hauto. rewrite Hseq in Hauto. tauto.
Qed.

Lemma handle_categories_seq {RT : Runtime} (cfg : config) (now : Z) (st : store)
    (req : request) :
  categories_seq st <= categories_seq (fst (handle cfg now st req)).
Proof.
  destruct req; simpl; try lia.
  - unfold post_categories.
    pose proof (upload_single_categories now st image) as [_ Hseq].
    destruct (upload_single now st image) as [st1 f]. simpl in Hseq.
    unfold insert_category.
    destruct (autoincrement _ _) as [i|m] eqn:Hauto; [|simpl; lia].
    destruct (name_taken _ _); simpl; [lia|].
    apply autoincrement_fresh in Hauto. lia.
  - unfold get_products. destruct category as [c|]; [destruct (truthy c)|];
      simpl; lia.
  - unfold post_products.
    pose proof (upload_single_categories now st image) as [_ Hseq].
    destruct (upload_single now st image) as [st1 f]. simpl in Hseq.
    unfold insert_product. destruct (autoincrement _ _); simpl; lia.
  - unfold post_orders, insert_order. destruct (autoincrement _ _); simpl; lia.
  - unfold post_status_leave, upsert_status_leave.
    destruct (existsb _ _); simpl; lia.
  - unfold get_uploads. destruct (find _ _); simpl; lia.
Qed.

Lemma run_categories_seq {RT : Runtime} (cfg : config)
    (reqs : list (Z * request)) (st : store) :
  categories_seq st <= categories_seq (run cfg st reqs).
Proof.
  revert st. induction reqs as [|[now req] reqs IH]; intros st; simpl; [lia|].
  pose proof (handle_categories_seq cfg now st req).
  specialize (IH (fst (handle cfg now st req))). lia.
Qed.

(** X9.  A category rowid is never handed out twice: of two POST
    /categories that succeed, the later one has taken the larger rowid,
    whatever requests were served in between, deletes of the first category
    included; and while the later [id] answered is below 2^53 the two
    answers are the rowids themselves, the later the larger. *)
Theorem category_ids_are_never_reused {RT : Runtime} (cfg : config)
    (t1 t2 : Z) (st : store) (name1 name2 : option string)
    (image1 image2 : option file_part) (reqs : list (Z * request))
    (id1 id2 : Z) (url1 url2 : option string) :
  snd (handle cfg t1 st (POST_categories name1 image1))
    = {| res_status := 200; res_body := JsonCategoryCreated id1 url1 |} ->
  snd (handle cfg t2
         (run cfg (fst (handle cfg t1 st (POST_categories name1 image1))) reqs)
         (POST_categories name2 image2))
    = {| res_status := 200; res_body := JsonCategoryCreated id2 url2 |} ->
  (exists rowid1 rowid2,
     id1 = lastID rowid1 /\ id2 = lastID rowid2 /\ rowid1 < rowid2
     /\ categories_seq (fst (handle cfg t1 st (POST_categories name1 image1)))
        = rowid1
     /\ categories_seq
          (fst (handle cfg t2
                  (run cfg (fst (handle cfg t1 st (POST_categories name1 image1)))
                       reqs)
                  (POST_categories name2 image2)))
        = rowid2)
  /\ (id2 < 2 ^ 53 -> id1 < id2).
Proof.
  intros H1 H2.
  apply post_categories_success in H1. destruct H1 as (r1 & Hid1 & Hpos1 & _ & Hs1).
  apply post_categories_success in H2. destruct H2 as (r2 & Hid2 & Hpos2 & Hlt & Hs2).
  pose proof (run_categories_seq cfg reqs
                (fst (handle cfg t1 st (POST_categories name1 image1)))) as Hrun.
  assert (Hr : r1 < r2) by lia.
  split.
  - exists r1, r2. auto.
  - intros Hsmall. subst id1 id2.
    pose proof (lastID_below_2_53 r2 (Z.lt_le_incl _ _ Hpos2) Hsmall) as He2.
    rewrite He2 in *. unfold lastID. rewrite round_to_double_exact; lia.
Qed.

(** X9 at work: "Spices" is created, deleted by its id 7 and created again;
    the second time it is number 8. *)
Lemma category_ids_are_never_reused_witness :
  (exists rowid1 rowid2,
     7 = lastID rowid1 /\ 8 = lastID rowid2 /\ rowid1 < rowid2
     /\ categories_seq
          (fst (handle (RT := example_runtime) example_config 1700000000123
                  example_store (POST_categories (Some "Spices") None)))
        = rowid1
     /\ categories_seq
          (fst (handle (RT := example_runtime) example_config 1700000000999
                  (run (RT := example_runtime) example_config
                       (fst (handle (RT := example_runtime) example_config
                               1700000000123 example_store
                               (POST_categories (Some "Spices") None)))
                       [(1700000000500, DELETE_categories_id "7")])
                  (POST_categories (Some "Spices") None)))
        = rowid2)
  /\ (8 < 2 ^ 53 -> 7 < 8).
Proof.
  apply (category_ids_are_never_reused (RT := example_runtime) example_config
           1700000000123 1700000000999 example_store
           (Some "Spices") (Some "Spices") None None
           [(1700000000500, DELETE_categories_id "7")] 7 8 None None).
  - reflexivity.
  - reflexivity.
Defined.

(** *** Deleting *)




Lemma name_taken_after_delete {RT : Runtime} (name : string)
    (rows : list category_row) :
  name_taken (Some name)
    (filter (fun r => negb (text_column_eq (cat_name r) name)) rows) = false.
Proof.
  simpl. induction rows as [|r rows IH]; simpl; [reflexivity|].
  destruct (text_column_eq (cat_name r) name) eqn:Hr; simpl; [exact IH|].
  rewrite Hr. exact IH.
Qed.

Lemma post_categories_accepts {RT : Runtime} (cfg : config) (now : Z)
    (st : store) (name : option string) (image : option file_part) :
  rowids_left (categories_seq st) (map cat_id (categories st)) ->
  name_taken name (categories st) = false ->
  exists url,
    snd (handle cfg now st (POST_categories name image))
    = {| res_status := 200;
         res_body :=
           JsonCategoryCreated
             (lastID (Z.max (categories_seq st)
                            (max_rowid (map cat_id (categories st))) + 1))
             url |}
    /\ categories (fst (handle cfg now st (POST_categories name image)))
       = categories st ++
           [{| cat_id := Z.max (categories_seq st)
                               (max_rowid (map cat_id (categories st))) + 1;
               cat_name := name; cat_image := url |}].
Proof.
  intros Hleft Hfree.
  pose proof (upload_single_categories now st image) as [Hcat Hseq].
  simpl. unfold post_categories.
  destruct (upload_single now st image) as [st1 req_file]. simpl in Hcat, Hseq.
  rewrite insert_category_ok by (rewrite Hcat, ?Hseq; assumption).
  rewrite Hcat, Hseq. eexists. split; reflexivity.
Qed.

Lemma max_rowid_filter {A : Type} (rowid : A -> Z) (keep : A -> bool)
    (rows : list A) :
  max_rowid (map rowid (filter keep rows)) <= max_rowid (map rowid rows).
Proof.
  induction rows as [|r rows IH]; simpl; [lia|]. destruct (keep r); simpl; lia.
Qed.

(** X11.  A name freed by DELETE /categories/by-name can be given again:
    on a store that obeys the schema and whose categories table can take a
    row, POST /categories with that name right after the delete succeeds;
    the table then holds the rows of before under other names followed by
    the new row, whose rowid is above those of all rows of before, the
    deleted ones included.  The [id] answered is that rowid as a JavaScript
    number. *)
Theorem deleted_category_name_is_free {RT : Runtime} (cfg : config)
    (now now' : Z) (st : store) (name : string) (image : option file_part) :
  wf_store st ->
  rowids_left (categories_seq st) (map cat_id (categories st)) ->
  exists rowid url,
    snd (handle cfg now'
           (fst (handle cfg now st (DELETE_categories_by_name name)))
           (POST_categories (Some name) image))
      = {| res_status := 200; res_body := JsonCategoryCreated (lastID rowid) url |}
    /\ categories
         (fst (handle cfg now'
                 (fst (handle cfg now st (DELETE_categories_by_name name)))
                 (POST_categories (Some name) image)))
       = filter (fun r => negb (text_column_eq (cat_name r) name)) (categories st)
         ++ [{| cat_id := rowid; cat_name := Some name; cat_image := url |}]
    /\ (forall r, In r (categories st) -> cat_id r < rowid).
Proof.
  intros Hwf Hleft.
  set (st1 := fst (handle cfg now st (DELETE_categories_by_name name))).
  assert (Hseq : categories_seq st1 = categories_seq st) by reflexivity.
  assert (Hrows : categories st1
                  = filter (fun r => negb (text_column_eq (cat_name r) name))
                           (categories st)) by reflexivity.
  pose proof (max_rowid_filter cat_id
                (fun r => negb (text_column_eq (cat_name r) name))
                (categories st)) as Hmax.
  rewrite <- Hrows in Hmax.
  assert (Hleft1 : rowids_left (categories_seq st1) (map cat_id (categories st1))).
  { unfold rowids_left in *. lia. }
  assert (Hfree : name_taken (Some name) (categories st1) = false).
  { rewrite Hrows. apply name_taken_after_delete. }
  destruct (post_categories_accepts cfg now' st1 (Some name) image Hleft1 Hfree)
    as (url & Hres & Htable).
  eexists. exists url. split; [exact Hres|]. split; [rewrite <- Hrows; exact Htable|].
  intros r Hin. destruct (wf_category_ids st Hwf) as [_ Hrange].
  rewrite Forall_forall in Hrange.
  specialize (Hrange (cat_id r) (in_map cat_id _ _ Hin)). lia.
Qed.

(** X11 at work: "Dairy" deleted from the example store and created again. *)
Lemma deleted_category_name_is_free_witness :
  exists rowid url,
    snd (handle (RT := example_runtime) example_config 1700000000999
           (fst (handle (RT := example_runtime) example_config 1700000000123
                   example_store (DELETE_categories_by_name "Dairy")))
           (POST_categories (Some "Dairy") None))
      = {| res_status := 200; res_body := JsonCategoryCreated (lastID rowid) url |}
    /\ categories
         (fst (handle (RT := example_runtime) example_config 1700000000999
                 (fst (handle (RT := example_runtime) example_config 1700000000123
                         example_store (DELETE_categories_by_name "Dairy")))
                 (POST_categories (Some "Dairy") None)))
       = filter (fun r => negb (text_column_eq (cat_name r) "Dairy"))
                (categories example_store)
         ++ [{| cat_id := rowid; cat_name := Some "Dairy"; cat_image := url |}]
    /\ (forall r, In r (categories example_store) -> cat_id r < rowid).
Proof.
  apply (deleted_category_name_is_free (RT := example_runtime) example_config
           1700000000123 1700000000999 example_store "Dairy" None).
  - constructor; simpl; unfold rowids_ok; simpl;
      repeat (constructor; simpl; try lia; try tauto);
      try (intros [H|H]; [discriminate H | exact H]).
  - unfold rowids_left. simpl. reflexivity.
Defined.

Lemma example_store_wf : wf_store example_store.
Proof.
  constructor; simpl; unfold rowids_ok; simpl;
    repeat (constructor; simpl; try lia; try tauto);
    try (intros [H|H]; [discriminate H | exact H]).
Qed.

Lemma rowid_matches_at_most_one {A : Type} (rowid : A -> Z) (i : Z)
    (rows : list A) :
  StronglySorted Z.lt (map rowid rows) ->
  (List.length (filter (fun r => (rowid r =? i)%Z) rows) <= 1)%nat.
Proof.
  induction rows as [|r rows IH]; intros Hs; simpl; [lia|].
  simpl in Hs. apply StronglySorted_inv in Hs. destruct Hs as [Hs Hr].
  destruct (Z.eqb_spec (rowid r) i) as [Heq|_]; [|apply IH; exact Hs].
  assert (Hnone : filter (fun x => rowid x =? i) rows = []).
  { clear IH Hs. induction rows as [|x rows IH]; [reflexivity|].
    simpl in Hr. inversion Hr as [|? ? Hx Hrest]; subst. simpl.
    destruct (Z.eqb_spec (rowid x) (rowid r)); [lia|]. apply IH. exact Hrest. }
  rewrite Hnone. simpl. lia.
Qed.

Lemma id_column_matches_at_most_one {RT : Runtime} {A : Type} (rowid : A -> Z)
    (id : string) (rows : list A) :
  StronglySorted Z.lt (map rowid rows) ->
  (List.length rows
   <= List.length (filter (fun r => negb (id_column_eq (rowid r) id)) rows) + 1)%nat.
Proof.
  intros Hs.
  pose proof (filter_length (fun r => id_column_eq (rowid r) id) rows) as Hlen.
  assert (Hone : (List.length (filter (fun r => id_column_eq (rowid r) id) rows)
                  <= 1)%nat).
  { unfold id_column_eq. destruct (integer_affinity id) as [|i|x|s];
      try (rewrite filter_false; simpl; lia).
    apply rowid_matches_at_most_one. exact Hs. }
  lia.
Qed.

(** X12.  On a store that obeys the schema DELETE /categories/:id and
    DELETE /products/:id remove at most one row; when the parameter is not
    the text of an integer they remove none. *)
Theorem delete_by_id_removes_at_most_one {RT : Runtime} (cfg : config)
    (now : Z) (st : store) (id : string) :
  wf_store st ->
  (List.length (categories st)
   <= List.length (categories (fst (handle cfg now st (DELETE_categories_id id))))
      + 1)%nat
  /\ (List.length (products st)
      <= List.length (products (fst (handle cfg now st (DELETE_products_id id))))
         + 1)%nat
  /\ match integer_affinity id with
     | SqlInteger _ => True
     | _ => categories (fst (handle cfg now st (DELETE_categories_id id)))
            = categories st
            /\ products (fst (handle cfg now st (DELETE_products_id id)))
               = products st
     end.
Proof.
  intros Hwf. split; [|split].
  - simpl. apply id_column_matches_at_most_one.
    exact (proj1 (wf_category_ids st Hwf)).
  - simpl. apply id_column_matches_at_most_one.
    exact (proj1 (wf_product_ids st Hwf)).
  - simpl. unfold id_column_eq.
    destruct (integer_affinity id); try exact I; simpl;
      rewrite !filter_true; auto.
Qed.

(** X12 at work: the example store and the id "4". *)
Lemma delete_by_id_removes_at_most_one_witness :
  (List.length (categories example_store)
   <= List.length
        (categories (fst (handle (RT := example_runtime) example_config
                            1700000000123 example_store
                            (DELETE_categories_id "4"))))
      + 1)%nat
  /\ (List.length (products example_store)
      <= List.length
           (products (fst (handle (RT := example_runtime) example_config
                             1700000000123 example_store
                             (DELETE_products_id "4"))))
         + 1)%nat
  /\ match integer_affinity (Runtime := example_runtime) "4" with
     | SqlInteger _ => True
     | _ => categories (fst (handle (RT := example_runtime) example_config
                               1700000000123 example_store
                               (DELETE_categories_id "4")))
            = categories example_store
            /\ products (fst (handle (RT := example_runtime) example_config
                                1700000000123 example_store
                                (DELETE_products_id "4")))
               = products example_store
     end.
Proof.
  apply (delete_by_id_removes_at_most_one (RT := example_runtime) example_config
           1700000000123 example_store "4").
  exact example_store_wf.
Defined.

(** *** Creating products *)

Lemma max_rowid_app (a b : list Z) :
  max_rowid (a ++ b) = Z.max (max_rowid a) (max_rowid b).
Proof.
  induction a as [|x a IH]; simpl.
  - pose proof (max_rowid_nonneg b). lia.
  - rewrite IH. lia.
Qed.

(** What POST /products makes of a store whose table can take a row. *)
Lemma post_products_accepts {RT : Runtime} (cfg : config) (now : Z) (st : store)
    (name description price category : option string)
    (image : option file_part) :
  rowids_left (products_seq st) (map prod_id (products st)) ->
  handle cfg now st (POST_products name description price category image)
  = (set_products (fst (upload_single now st image))
       (products st ++
          [{| prod_id := Z.max (products_seq st)
                               (max_rowid (map prod_id (products st))) + 1;
              prod_name := name; prod_description := description;
              prod_price := price_cell price;
              prod_image := image_url cfg (option_map (multer_filename now) image);
              prod_category := category |}])
       (Z.max (products_seq st) (max_rowid (map prod_id (products st))) + 1),
     {| res_status := 200;
        res_body :=
          JsonProductCreated
            (lastID (Z.max (products_seq st)
                           (max_rowid (map prod_id (products st))) + 1))
            (image_url cfg (option_map (multer_filename now) image)) |}).
Proof.
  intros Hleft. pose proof (autoincrement_ok _ _ Hleft) as Hauto.
  simpl. unfold post_products, insert_product.
  destruct image; simpl; rewrite Hauto; reflexivity.
Qed.

(** X13.  The products table has no unique column: the same fields posted
    twice, with or without a file, on a table that can take two rows, are
    both accepted, and the table afterwards holds the rows of before
    followed by two rows with these fields under consecutive rowids, each
    with the image of its own upload.  The [productId] answered is the
    rowid of the row as a JavaScript number. *)
Theorem post_products_twice {RT : Runtime} (cfg : config) (t1 t2 : Z)
    (st : store) (name description price category : option string)
    (image1 image2 : option file_part) :
  Z.max (products_seq st) (max_rowid (map prod_id (products st))) + 1 < MAX_ROWID ->
  exists rowid,
    snd (handle cfg t1 st
           (POST_products name description price category image1))
      = {| res_status := 200;
           res_body :=
             JsonProductCreated (lastID rowid)
               (image_url cfg (option_map (multer_filename t1) image1)) |}
    /\ snd (handle cfg t2
              (fst (handle cfg t1 st
                      (POST_products name description price category image1)))
              (POST_products name description price category image2))
       = {| res_status := 200;
            res_body :=
              JsonProductCreated (lastID (rowid + 1))
                (image_url cfg (option_map (multer_filename t2) image2)) |}
    /\ products
         (fst (handle cfg t2
                 (fst (handle cfg t1 st
                         (POST_products name description price category image1)))
                 (POST_products name description price category image2)))
       = products st ++
           [ {| prod_id := rowid; prod_name := name;
                prod_description := description;
                prod_price := price_cell price;
                prod_image := image_url cfg (option_map (multer_filename t1) image1);
                prod_category := category |};
             {| prod_id := rowid + 1; prod_name := name;
                prod_description := description;
                prod_price := price_cell price;
                prod_image := image_url cfg (option_map (multer_filename t2) image2);
                prod_category := category |} ]
    /\ (forall r, In r (products st) -> prod_id r < rowid).
Proof.
  intros Hleft.
  exists (Z.max (products_seq st) (max_rowid (map prod_id (products st))) + 1).
  rewrite (post_products_accepts cfg t1 st) by (unfold rowids_left; lia).
  cbn [fst snd].
  set (id := Z.max (products_seq st) (max_rowid (map prod_id (products st))) + 1).
  set (row := {| prod_id := id; prod_name := name; prod_description := description;
                 prod_price := price_cell price;
                 prod_image := image_url cfg (option_map (multer_filename t1) image1);
                 prod_category := category |}).
  set (st1 := set_products (fst (upload_single t1 st image1))
                (products st ++ [row]) id).
  assert (Hrows : products st1 = products st ++ [row]) by reflexivity.
  assert (Hseq : products_seq st1 = id) by reflexivity.
  assert (Htop : Z.max (products_seq st1) (max_rowid (map prod_id (products st1)))
                 = id).
  { rewrite Hseq, Hrows, map_app, max_rowid_app.
    change (max_rowid (map prod_id [row])) with (Z.max id 0).
    pose proof (max_rowid_nonneg (map prod_id (products st))). subst id. lia. }
  rewrite (post_products_accepts cfg t2 st1)
    by (unfold rowids_left; rewrite Htop; subst id; lia).
  cbn [fst snd products set_products]. rewrite Htop, Hrows, <- app_assoc.
  split; [reflexivity|]. split; [reflexivity|]. split; [reflexivity|].
  intros r Hin. pose proof (max_rowid_upper _ _ (in_map prod_id _ _ Hin)).
  subst id. lia.
Qed.

(** X13 at work: "Ghee" posted twice to the example store, the second time
    with a picture. *)
Lemma post_products_twice_witness :
  exists rowid,
    snd (handle (RT := example_runtime) example_config 1700000000123 example_store
           (POST_products (Some "Ghee") None (Some "450") (Some "Dairy") None))
      = {| res_status := 200;
           res_body :=
             JsonProductCreated (lastID rowid)
               (image_url example_config
                  (option_map (multer_filename (RT := example_runtime) 1700000000123)
                     None)) |}
    /\ snd (handle (RT := example_runtime) example_config 1700000000999
              (fst (handle (RT := example_runtime) example_config 1700000000123
                      example_store
                      (POST_products (Some "Ghee") None (Some "450")
                                     (Some "Dairy") None)))
              (POST_products (Some "Ghee") None (Some "450") (Some "Dairy")
                 (Some {| originalname := "ghee.png"; file_content := "png" |})))
       = {| res_status := 200;
            res_body :=
              JsonProductCreated (lastID (rowid + 1))
                (image_url example_config
                   (option_map (multer_filename (RT := example_runtime) 1700000000999)
                      (Some {| originalname := "ghee.png";
                               file_content := "png" |}))) |}
    /\ products
         (fst (handle (RT := example_runtime) example_config 1700000000999
                 (fst (handle (RT := example_runtime) example_config 1700000000123
                         example_store
                         (POST_products (Some "Ghee") None (Some "450")
                                        (Some "Dairy") None)))
                 (POST_products (Some "Ghee") None (Some "450") (Some "Dairy")
                    (Some {| originalname := "ghee.png"; file_content := "png" |}))))
       = products example_store ++
           [ {| prod_id := rowid; prod_name := Some "Ghee";
                prod_description := None;
                prod_price := price_cell (RT := example_runtime) (Some "450");
                prod_image :=
                  image_url example_config
                    (option_map (multer_filename (RT := example_runtime) 1700000000123)
                       None);
                prod_category := Some "Dairy" |};
             {| prod_id := rowid + 1; prod_name := Some "Ghee";
                prod_description := None;
                prod_price := price_cell (RT := example_runtime) (Some "450");
                prod_image :=
                  image_url example_config
                    (option_map (multer_filename (RT := example_runtime) 1700000000999)
                       (Some {| originalname := "ghee.png";
                                file_content := "png" |}));
                prod_category := Some "Dairy" |} ]
    /\ (forall r, In r (products example_store) -> prod_id r < rowid).
Proof.
  apply (post_products_twice (RT := example_runtime) example_config
           1700000000123 1700000000999 example_store
           (Some "Ghee") None (Some "450") (Some "Dairy") None
           (Some {| originalname := "ghee.png"; file_content := "png" |})).
  simpl. reflexivity.
Defined.

(** X14.  A product posted with a category shows up in that category and in
    no other: after a POST /products that the table can take, GET /products
    with a non-empty [category] answers with what it would have answered
    before, followed by the new row when the row's category is that very
    string. *)
Theorem post_products_then_get_by_category {RT : Runtime} (cfg : config)
    (t1 t2 : Z) (st : store) (name description price category : option string)
    (image : option file_part) (wanted : string) :
  rowids_left (products_seq st) (map prod_id (products st)) ->
  wanted <> "" ->
  exists row,
    prod_name row = name /\ prod_description row = description
    /\ prod_category row = category
    /\ (forall r, In r (products st) -> prod_id r < prod_id row)
    /\ snd (handle cfg t2
              (fst (handle cfg t1 st
                      (POST_products name description price category image)))
              (GET_products (Some wanted)))
       = {| res_status := 200;
            res_body :=
              JsonProducts
                (filter (fun r => text_column_eq (prod_category r) wanted)
                        (products st)
                 ++ (if text_column_eq category wanted then [row] else [])) |}.
Proof.
  intros Hleft Hwanted.
  rewrite (post_products_accepts cfg t1 st _ _ _ _ _ Hleft).
  exists {| prod_id := Z.max (products_seq st)
                             (max_rowid (map prod_id (products st))) + 1;
            prod_name := name; prod_description := description;
            prod_price := price_cell price;
            prod_image := image_url cfg (option_map (multer_filename t1) image);
            prod_category := category |}.
  split; [reflexivity|]. split; [reflexivity|]. split; [reflexivity|].
  split.
  - intros r Hin. simpl.
    pose proof (max_rowid_upper _ _ (in_map prod_id _ _ Hin)). lia.
  - cbn [fst]. change (handle cfg t2 ?s (GET_products ?c)) with (get_products s c).
    unfold get_products. rewrite (truthy_nonempty wanted Hwanted).
    unfold select_products_where_category. cbn [snd products set_products].
    rewrite filter_app. simpl. reflexivity.
Qed.

(** X14 at work: "Ghee" posted under "Dairy", then the "Dairy" products read. *)
Lemma post_products_then_get_by_category_witness :
  exists row,
    prod_name row = Some "Ghee" /\ prod_description row = None
    /\ prod_category row = Some "Dairy"
    /\ (forall r, In r (products example_store) -> prod_id r < prod_id row)
    /\ snd (handle (RT := example_runtime) example_config 1700000000999
              (fst (handle (RT := example_runtime) example_config 1700000000123
                      example_store
                      (POST_products (Some "Ghee") None (Some "450")
                                     (Some "Dairy") None)))
              (GET_products (Some "Dairy")))
       = {| res_status := 200;
            res_body :=
              JsonProducts
                (filter (fun r => text_column_eq (prod_category r) "Dairy")
                        (products example_store)
                 ++ (if text_column_eq (Some "Dairy") "Dairy" then [row] else [])) |}.
Proof.
  apply (post_products_then_get_by_category (RT := example_runtime) example_config
           1700000000123 1700000000999 example_store
           (Some "Ghee") None (Some "450") (Some "Dairy") None "Dairy").
  - unfold rowids_left. simpl. reflexivity.
  - discriminate.
Defined.

(** *** What holds in every store the service reaches *)

Lemma run_wf {RT : Runtime} (cfg : config) (reqs : list (Z * request))
    (st : store) :
  wf_store st -> wf_store (run cfg st reqs).
Proof.
  revert st. induction reqs as [|[now req] reqs IH]; intros st Hwf; simpl.
  - exact Hwf.
  - apply IH. apply handle_wf. exact Hwf.
Qed.

(** X15.  Whatever requests a fresh store has served, it obeys the schema:
    in each of categories, products and orders the rowids ascend along the
    table without repeats and stay within the table's sequence, no
    category name occurs twice, and no status key occurs twice. *)
Theorem served_store_obeys_schema {RT : Runtime} (cfg : config)
    (reqs : list (Z * request)) :
  wf_store (run cfg empty_store reqs)
  /\ StronglySorted Z.lt (map cat_id (categories (run cfg empty_store reqs)))
  /\ StronglySorted Z.lt (map prod_id (products (run cfg empty_store reqs)))
  /\ StronglySorted Z.lt (map ord_id (orders (run cfg empty_store reqs)))
  /\ NoDup (category_names (categories (run cfg empty_store reqs)))
  /\ NoDup (map st_key (status (run cfg empty_store reqs))).
Proof.
  pose proof (run_wf cfg reqs empty_store empty_store_wf) as Hwf.
  split; [exact Hwf|]. destruct Hwf as [[Hc _] Hn [Hp _] [Ho _] Hs]. auto.
Qed.

(** The status table of a served store: empty, or the one row of "leave". *)
Lemma handle_status_shape {RT : Runtime} (cfg : config) (now : Z) (st : store)
    (req : request) :
  status st = [] \/ (exists v, status st = [{| st_key := "leave"; st_value := v |}]) ->
  status (fst (handle cfg now st req)) = []
  \/ (exists v, status (fst (handle cfg now st req))
                = [{| st_key := "leave"; st_value := v |}]).
Proof.
  intros Hshape. pose proof (handle_status_frame cfg now st req) as Hframe.
  destruct req; try (rewrite Hframe; exact Hshape).
  right. exists status0. simpl. unfold post_status_leave, upsert_status_leave.
  destruct Hshape as [Hnil|[v Hone]]; [rewrite Hnil|rewrite Hone]; reflexivity.
Qed.

(** X16.  The status table of a store that started fresh never holds
    anything but the one row of "leave": it is empty, and GET /status/leave
    answers "none", until the first POST /status/leave; from then on it is
    that single row and GET /status/leave answers the row's value. *)
Theorem status_table_is_leave_or_empty {RT : Runtime} (cfg : config) (now : Z)
    (reqs : list (Z * request)) :
  (status (run cfg empty_store reqs) = []
   /\ snd (handle cfg now (run cfg empty_store reqs) GET_status_leave)
      = {| res_status := 200; res_body := JsonStatus (Some "none") |})
  \/ (exists v,
        status (run cfg empty_store reqs)
        = [{| st_key := "leave"; st_value := v |}]
        /\ snd (handle cfg now (run cfg empty_store reqs) GET_status_leave)
           = {| res_status := 200; res_body := JsonStatus v |}).
Proof.
  assert (Hshape : forall rs st,
             status st = []
             \/ (exists v, status st = [{| st_key := "leave"; st_value := v |}]) ->
             status (run cfg st rs) = []
             \/ (exists v, status (run cfg st rs)
                           = [{| st_key := "leave"; st_value := v |}])).
  { induction rs as [|[t r] rs IH]; intros st Hst; simpl; [exact Hst|].
    apply IH. apply handle_status_shape. exact Hst. }
  destruct (Hshape reqs empty_store (or_introl eq_refl)) as [Hnil|[v Hone]].
  - left. split; [exact Hnil|]. simpl.
    unfold get_status_leave, select_status_value. rewrite Hnil. reflexivity.
  - right. exists v. split; [exact Hone|]. simpl.
    unfold get_status_leave, select_status_value. rewrite Hone. reflexivity.
Qed.

(** *** Orders in the order of their placing *)

Lemma insert_by_created_at_front {RT : Runtime} (r : order_row)
    (l : list order_row) :
  Forall (created_le r) l -> insert_by_created_at r l = r :: l.
Proof.
  intros Hall. destruct l as [|x l]; [reflexivity|]. simpl.
  inversion Hall as [|? ? Hx _]; subst. unfold created_le in Hx.
  destruct (Z.leb_spec (ord_created_at r) (ord_created_at x)); [reflexivity|lia].
Qed.

(** Rows that are on file oldest first leave the sorter as they are. *)
Lemma order_by_created_at_sorted_input {RT : Runtime} (l : list order_row) :
  StronglySorted created_le l -> order_by_created_at l = l.
Proof.
  induction l as [|x l IH]; intros Hs; [reflexivity|].
  apply StronglySorted_inv in Hs. destruct Hs as [Hs Hx].
  simpl. rewrite (IH Hs). apply insert_by_created_at_front. exact Hx.
Qed.

Lemma StronglySorted_created_snoc (l : list order_row) (r : order_row) :
  StronglySorted created_le l -> Forall (fun x => created_le x r) l ->
  StronglySorted created_le (l ++ [r]).
Proof.
  induction l as [|x l IH]; intros Hs Hall; simpl.
  - repeat constructor.
  - apply StronglySorted_inv in Hs. destruct Hs as [Hs Hx].
    inversion Hall as [|? ? Hxr Hrest]; subst.
    constructor; [apply IH; assumption|].
    apply Forall_app. split; [exact Hx|]. repeat constructor. exact Hxr.
Qed.

(** While the clock does not go back the orders table stays oldest first. *)
Lemma run_orders_sorted {RT : Runtime} (cfg : config)
    (reqs : list (Z * request)) (st : store) :
  StronglySorted Z.le (map fst reqs) ->
  StronglySorted created_le (orders st) ->
  Forall (fun r => Forall (fun t => ord_created_at r <= CURRENT_TIMESTAMP t)
                          (map fst reqs))
         (orders st) ->
  StronglySorted created_le (orders (run cfg st reqs)).
Proof.
  revert st. induction reqs as [|[now req] reqs IH]; intros st Hclock Hs Hpast;
    simpl; [exact Hs|].
  simpl in Hclock. apply StronglySorted_inv in Hclock.
  destruct Hclock as [Hclock Hnow].
  assert (Hpast_now : Forall (fun r => ord_created_at r <= CURRENT_TIMESTAMP now)
                             (orders st)).
  { eapply Forall_impl; [|exact Hpast]. simpl. intros r Hr.
    inversion Hr; assumption. }
  assert (Hpast_rest : Forall (fun r => Forall (fun t => ord_created_at r
                                                         <= CURRENT_TIMESTAMP t)
                                               (map fst reqs))
                              (orders st)).
  { eapply Forall_impl; [|exact Hpast]. simpl. intros r Hr.
    inversion Hr; assumption. }
  pose proof (handle_orders_frame cfg now st req) as Hframe.
  apply IH; [exact Hclock| |];
    destruct req; try (rewrite (proj1 Hframe); assumption); clear Hframe;
    simpl; unfold post_orders, insert_order;
    destruct (autoincrement _ _) as [id|m]; simpl; try assumption.
  - apply StronglySorted_created_snoc; [exact Hs|].
    eapply Forall_impl; [|exact Hpast_now]. intros r Hr. exact Hr.
  - apply Forall_app. split; [exact Hpast_rest|]. repeat constructor. simpl.
    eapply Forall_impl; [|exact Hnow]. simpl. intros t Ht.
    apply CURRENT_TIMESTAMP_mono. exact Ht.
Qed.

(** X17.  When the clock readings of the requests a fresh store serves never
    go back, GET /orders answers with the orders table as it is on file,
    rowid after rowid: every order in the order in which it was placed. *)
Theorem get_orders_in_placing_order {RT : Runtime} (cfg : config) (now : Z)
    (reqs : list (Z * request)) :
  StronglySorted Z.le (map fst reqs) ->
  handle cfg now (run cfg empty_store reqs) GET_orders
  = (run cfg empty_store reqs,
     {| res_status := 200;
        res_body := JsonOrders (orders (run cfg empty_store reqs)) |})
  /\ StronglySorted Z.lt (map ord_id (orders (run cfg empty_store reqs))).
Proof.
  intros Hclock. split.
  - simpl. unfold get_orders, select_orders.
    rewrite order_by_created_at_sorted_input; [reflexivity|].
    apply run_orders_sorted; [exact Hclock | constructor | constructor].
  - exact (proj1 (wf_order_ids _ (run_wf cfg reqs empty_store empty_store_wf))).
Qed.

(** X17 at work: two orders of the same second and a third one later. *)
Lemma get_orders_in_placing_order_witness :
  handle (RT := example_runtime) example_config 1700000009000
    (run (RT := example_runtime) example_config empty_store
       [(1700000000100, POST_orders (RT := example_runtime) (Some 1) None);
        (1700000000900, POST_orders (RT := example_runtime) (Some 2) None);
        (1700000002000, GET_categories);
        (1700000005000, POST_orders (RT := example_runtime) (Some 3) None)])
    GET_orders
  = (run (RT := example_runtime) example_config empty_store
       [(1700000000100, POST_orders (RT := example_runtime) (Some 1) None);
        (1700000000900, POST_orders (RT := example_runtime) (Some 2) None);
        (1700000002000, GET_categories);
        (1700000005000, POST_orders (RT := example_runtime) (Some 3) None)],
     {| res_status := 200;
        res_body :=
          JsonOrders
            (orders
               (run (RT := example_runtime) example_config empty_store
                  [(1700000000100, POST_orders (RT := example_runtime) (Some 1) None);
                   (1700000000900, POST_orders (RT := example_runtime) (Some 2) None);
                   (1700000002000, GET_categories);
                   (1700000005000,
                    POST_orders (RT := example_runtime) (Some 3) None)])) |})
  /\ StronglySorted Z.lt
       (map ord_id
          (orders
             (run (RT := example_runtime) example_config empty_store
                [(1700000000100, POST_orders (RT := example_runtime) (Some 1) None);
                 (1700000000900, POST_orders (RT := example_runtime) (Some 2) None);
                 (1700000002000, GET_categories);
                 (1700000005000,
                  POST_orders (RT := example_runtime) (Some 3) None)]))).
Proof.
  apply (get_orders_in_placing_order (RT := example_runtime) example_config
           1700000009000
           [(1700000000100, POST_orders (RT := example_runtime) (Some 1) None);
            (1700000000900, POST_orders (RT := example_runtime) (Some 2) None);
            (1700000002000, GET_categories);
            (1700000005000, POST_orders (RT := example_runtime) (Some 3) None)]).
  simpl. repeat (constructor; try lia).
Defined.

(** *** Stored image URLs and the files behind them *)

Lemma write_file_has (files : list (string * string)) (name content : string) :
  In name (map fst (write_file files name content)).
Proof.
  induction files as [|[n c] files IH]; simpl; [auto|].
  destruct (String.eqb_spec n name); simpl; auto.
Qed.

Lemma find_file_of_name (files : list (string * string)) (name : string) :
  In name (map fst files) ->
  exists content,
    find (fun f => (fst f =? name)%string) files = Some (name, content).
Proof.
  induction files as [|[n c] files IH]; simpl; [contradiction|].
  intros Hin. destruct (String.eqb_spec n name) as [->|Hne].
  - exists c. reflexivity.
  - apply IH. destruct Hin as [Heq|Hin]; [contradiction|exact Hin].
Qed.

Lemma image_on_file_grow (cfg : config) (files files' : list (string * string))
    (image : option string) :
  (forall n, In n (map fst files) -> In n (map fst files')) ->
  image_on_file cfg files image -> image_on_file cfg files' image.
Proof.
  intros Hgrow. destruct image as [url|]; simpl; [|auto].
  intros (filename & Hurl & Hin). exists filename. auto.
Qed.

Lemma upload_single_names {RT : Runtime} (now : Z) (st : store)
    (image : option file_part) (n : string) :
  In n (map fst (uploads st)) ->
  In n (map fst (uploads (fst (upload_single now st image)))).
Proof.
  destruct image; simpl; [apply write_file_names|auto].
Qed.

Lemma upload_single_image_on_file {RT : Runtime} (cfg : config) (now : Z)
    (st : store) (image : option file_part) :
  image_on_file cfg (uploads (fst (upload_single now st image)))
    (image_url cfg (snd (upload_single now st image))).
Proof.
  destruct image as [file|]; simpl; [|exact I].
  eexists. split; [reflexivity|]. apply write_file_has.
Qed.

(** A request that neither creates nor deletes a category or a product
    leaves both tables as they are. *)
Lemma handle_catalog_frame {RT : Runtime} (cfg : config) (now : Z) (st : store)
    (req : request) :
  match req with
  | POST_categories _ _ | DELETE_categories_id _ | DELETE_categories_by_name _
  | POST_products _ _ _ _ _ | DELETE_products_id _ | DELETE_products_by_name _ =>
      True
  | _ => categories (fst (handle cfg now st req)) = categories st
         /\ products (fst (handle cfg now st req)) = products st
  end.
Proof.
  destruct req; simpl; try exact I; try (split; reflexivity).
  - unfold get_products. destruct category as [c|]; [destruct (truthy c)|];
      split; reflexivity.
  - unfold post_orders, insert_order. destruct (autoincrement _ _);
      split; reflexivity.
  - unfold post_status_leave, upsert_status_leave. destruct (existsb _ _);
      split; reflexivity.
  - unfold get_uploads. destruct (find _ _); split; reflexivity.
Qed.

Section ImagesOnFile.

Context {RT : Runtime}.
Variable cfg : config.

(** Every image of the two catalog tables is null or the URL of a file of
    the directory. *)
Let images_on_file (st : store) : Prop :=
  Forall (fun r => image_on_file cfg (uploads st) (cat_image r)) (categories st)
  /\ Forall (fun r => image_on_file cfg (uploads st) (prod_image r)) (products st).

Lemma images_on_file_grow (st st' : store) :
  (forall n, In n (map fst (uploads st)) -> In n (map fst (uploads st'))) ->
  categories st' = categories st -> products st' = products st ->
  images_on_file st -> images_on_file st'.
Proof.
  intros Hgrow Hc Hp [Hcat Hprod]. unfold images_on_file. rewrite Hc, Hp.
  split; (eapply Forall_impl; [|eassumption]); intros r;
    apply image_on_file_grow; exact Hgrow.
Qed.

Lemma Forall_filter_keep {A : Type} (P : A -> Prop) (keep : A -> bool)
    (l : list A) :
  Forall P l -> Forall P (filter keep l).
Proof.
  rewrite !Forall_forall. intros Hall x Hin. apply Hall.
  apply filter_In in Hin. tauto.
Qed.

Lemma handle_images_on_file (now : Z) (st : store) (req : request) :
  images_on_file st -> images_on_file (fst (handle cfg now st req)).
Proof.
  intros Hinv. pose proof (handle_catalog_frame cfg now st req) as Hframe.
  pose proof (handle_uploads_names cfg now st req) as Hnames.
  destruct req;
    try exact (images_on_file_grow st _ Hnames (proj1 Hframe) (proj2 Hframe) Hinv);
    clear Hframe Hnames.
  - (* POST /categories *)
    simpl. unfold post_categories.
    pose proof (upload_single_categories now st image) as [Hc _].
    pose proof (upload_single_products now st image) as [Hp _].
    pose proof (upload_single_image_on_file cfg now st image) as Hnew.
    pose proof (images_on_file_grow st _ (upload_single_names now st image) Hc Hp
                  Hinv) as Hinv1.
    destruct (upload_single now st image) as [st1 f]. simpl in *.
    unfold insert_category. destruct (autoincrement _ _); [|exact Hinv1].
    destruct (name_taken _ _); [exact Hinv1|].
    destruct Hinv1 as [Hcat Hprod]. split; simpl; [|exact Hprod].
    apply Forall_app. split; [exact Hcat|]. repeat constructor. exact Hnew.
  - destruct Hinv as [Hcat Hprod]. split; simpl; [|exact Hprod].
    apply Forall_filter_keep. exact Hcat.
  - destruct Hinv as [Hcat Hprod]. split; simpl; [|exact Hprod].
    apply Forall_filter_keep. exact Hcat.
  - (* POST /products *)
    simpl. unfold post_products.
    pose proof (upload_single_categories now st image) as [Hc _].
    pose proof (upload_single_products now st image) as [Hp _].
    pose proof (upload_single_image_on_file cfg now st image) as Hnew.
    pose proof (images_on_file_grow st _ (upload_single_names now st image) Hc Hp
                  Hinv) as Hinv1.
    destruct (upload_single now st image) as [st1 f]. simpl in *.
    unfold insert_product. destruct (autoincrement _ _); [|exact Hinv1].
    destruct Hinv1 as [Hcat Hprod]. split; simpl; [exact Hcat|].
    apply Forall_app. split; [exact Hprod|]. repeat constructor. exact Hnew.
  - destruct Hinv as [Hcat Hprod]. split; simpl; [exact Hcat|].
    apply Forall_filter_keep. exact Hprod.
  - destruct Hinv as [Hcat Hprod]. split; simpl; [exact Hcat|].
    apply Forall_filter_keep. exact Hprod.
Qed.

Lemma run_images_on_file (reqs : list (Z * request)) (st : store) :
  images_on_file st -> images_on_file (run cfg st reqs).
Proof.
  revert st. induction reqs as [|[now req] reqs IH]; intros st Hinv; simpl.
  - exact Hinv.
  - apply IH. apply handle_images_on_file. exact Hinv.
Qed.

Lemma image_on_file_served (now : Z) (st : store) (url : string) :
  image_on_file cfg (uploads st) (Some url) ->
  exists filename content,
    url = (BACKEND_URL cfg ++ "/uploads/" ++ filename)%string
    /\ snd (handle cfg now st (GET_uploads filename))
       = {| res_status := 200; res_body := FileBody content |}.
Proof.
  intros (filename & Hurl & Hin).
  destruct (find_file_of_name _ _ Hin) as [content Hfind].
  exists filename, content. split; [exact Hurl|].
  simpl. unfold get_uploads. rewrite Hfind. reflexivity.
Qed.

(** X18.  In a store that started fresh, every image a category or a
    product row holds is the base URL, "/uploads/" and the name of a file
    that is in the uploads directory: whatever was deleted or uploaded
    since, GET on that name is answered 200 with a file. *)
Theorem stored_images_are_served (now : Z) (reqs : list (Z * request)) :
  (forall r url,
     In r (categories (run cfg empty_store reqs)) -> cat_image r = Some url ->
     exists filename content,
       url = (BACKEND_URL cfg ++ "/uploads/" ++ filename)%string
       /\ snd (handle cfg now (run cfg empty_store reqs) (GET_uploads filename))
          = {| res_status := 200; res_body := FileBody content |})
  /\ (forall r url,
        In r (products (run cfg empty_store reqs)) -> prod_image r = Some url ->
        exists filename content,
          url = (BACKEND_URL cfg ++ "/uploads/" ++ filename)%string
          /\ snd (handle cfg now (run cfg empty_store reqs) (GET_uploads filename))
             = {| res_status := 200; res_body := FileBody content |}).
Proof.
  assert (Hinv : images_on_file (run cfg empty_store reqs)).
  { apply run_images_on_file. split; constructor. }
  destruct Hinv as [Hcat Hprod]. rewrite Forall_forall in Hcat, Hprod.
  split; intros r url Hin Himage; apply image_on_file_served;
    rewrite <- Himage; auto.
Qed.

End ImagesOnFile.

(** *** The two server files side by side *)

Section SideBySide.

Context {RT : Runtime}.
Variable cfg : config.

(** Two stores that differ in image columns at most. *)
Let alike (st st' : store) : Prop :=
  map without_category_image (categories st)
  = map without_category_image (categories st')
  /\ categories_seq st = categories_seq st'
  /\ map without_product_image (products st)
     = map without_product_image (products st')
  /\ products_seq st = products_seq st'
  /\ orders st = orders st' /\ orders_seq st = orders_seq st'
  /\ status st = status st' /\ uploads st = uploads st'.

Lemma alike_without_images (st st' : store) :
  alike st st' <-> without_images st = without_images st'.
Proof.
  unfold alike, without_images. split.
  - intros (-> & -> & -> & -> & -> & -> & -> & ->). reflexivity.
  - intros [= Hc Hcs Hp Hps Ho Hos Hs Hu]. tauto.
Qed.

Lemma map_filter_alike {A : Type} (blank : A -> A) (keep : A -> bool)
    (l l' : list A) :
  (forall r, keep (blank r) = keep r) ->
  map blank l = map blank l' ->
  map blank (filter keep l) = map blank (filter keep l').
Proof.
  intros Hkeep. revert l'. induction l as [|x l IH]; intros [|y l'] Heq;
    try discriminate; [reflexivity|].
  simpl in Heq. injection Heq as Hxy Hrest. simpl.
  assert (Hk : keep x = keep y) by (rewrite <- (Hkeep x), <- (Hkeep y), Hxy; reflexivity).
  rewrite Hk. destruct (keep y); simpl; [rewrite Hxy; f_equal|]; apply IH; exact Hrest.
Qed.

Lemma alike_category_ids (l l' : list category_row) :
  map without_category_image l = map without_category_image l' ->
  map cat_id l = map cat_id l'
  /\ forall name, name_taken name l = name_taken name l'.
Proof.
  intros Heq. split.
  - apply (f_equal (map cat_id)) in Heq. rewrite !map_map in Heq. exact Heq.
  - intros [n|]; [|reflexivity]. simpl. revert l' Heq.
    induction l as [|x l IH]; intros [|y l'] Heq; try discriminate;
      [reflexivity|].
    simpl in Heq. injection Heq as _ Hname Hrest. simpl.
    rewrite Hname, (IH l' Hrest). reflexivity.
Qed.

Lemma alike_product_ids (l l' : list product_row) :
  map without_product_image l = map without_product_image l' ->
  map prod_id l = map prod_id l'.
Proof.
  intros Heq. apply (f_equal (map prod_id)) in Heq. rewrite !map_map in Heq.
  exact Heq.
Qed.

Lemma alike_upload_single (now : Z) (st st' : store) (image : option file_part) :
  alike st st' ->
  alike (fst (upload_single now st image)) (fst (upload_single now st' image))
  /\ snd (upload_single now st image) = snd (upload_single now st' image).
Proof.
  unfold alike. intros (Hc & Hcs & Hp & Hps & Ho & Hos & Hs & Hu).
  destruct image; simpl; rewrite ?Hu; tauto.
Qed.

(** One request served by either file keeps the stores alike. *)
Lemma handle_alike (now : Z) (st st' : store) (req : request) :
  alike st st' ->
  alike (fst (Part000.handle now st req)) (fst (handle cfg now st' req)).
Proof.
  intros Halike. destruct req; simpl; try exact Halike.
  - (* POST /categories *)
    unfold Part000.post_categories, post_categories.
    destruct (alike_upload_single now st st' image Halike) as [H1 Hf].
    destruct (upload_single now st image) as [st1 f].
    destruct (upload_single now st' image) as [st1' f']. simpl in H1, Hf.
    unfold insert_category.
    destruct H1 as (Hc & Hcs & Hp & Hps & Ho & Hos & Hs & Hu).
    destruct (alike_category_ids _ _ Hc) as [Hids Htaken].
    rewrite Hids, Hcs, (Htaken name).
    destruct (autoincrement _ _) as [id|m]; [|unfold alike; tauto].
    destruct (name_taken name (categories st1')); unfold alike; simpl;
      [tauto|].
    rewrite !map_app, Hc. simpl. tauto.
  - destruct Halike as (Hc & Hcs & Hp & Hps & Ho & Hos & Hs & Hu).
    unfold alike. simpl. repeat split; try assumption.
    apply map_filter_alike; [reflexivity|exact Hc].
  - destruct Halike as (Hc & Hcs & Hp & Hps & Ho & Hos & Hs & Hu).
    unfold alike. simpl. repeat split; try assumption.
    apply map_filter_alike; [reflexivity|exact Hc].
  - unfold get_products. destruct category as [c|]; [destruct (truthy c)|];
      exact Halike.
  - (* POST /products *)
    unfold Part000.post_products, post_products.
    destruct (alike_upload_single now st st' image Halike) as [H1 Hf].
    destruct (upload_single now st image) as [st1 f].
    destruct (upload_single now st' image) as [st1' f']. simpl in H1, Hf.
    unfold insert_product.
    destruct H1 as (Hc & Hcs & Hp & Hps & Ho & Hos & Hs & Hu).
    rewrite (alike_product_ids _ _ Hp), Hps.
    destruct (autoincrement _ _) as [id|m]; [|unfold alike; tauto].
    unfold alike. simpl. rewrite !map_app, Hp. simpl. tauto.
  - destruct Halike as (Hc & Hcs & Hp & Hps & Ho & Hos & Hs & Hu).
    unfold alike. simpl. repeat split; try assumption.
    apply map_filter_alike; [reflexivity|exact Hp].
  - destruct Halike as (Hc & Hcs & Hp & Hps & Ho & Hos & Hs & Hu).
    unfold alike. simpl. repeat split; try assumption.
    apply map_filter_alike; [reflexivity|exact Hp].
  - (* POST /orders *)
    unfold post_orders, insert_order.
    destruct Halike as (Hc & Hcs & Hp & Hps & Ho & Hos & Hs & Hu).
    rewrite Ho, Hos. destruct (autoincrement _ _); unfold alike; simpl; tauto.
  - (* POST /status/leave *)
    unfold post_status_leave, upsert_status_leave.
    destruct Halike as (Hc & Hcs & Hp & Hps & Ho & Hos & Hs & Hu).
    rewrite Hs. destruct (existsb _ _); unfold alike; simpl; tauto.
  - unfold get_uploads.
    destruct Halike as (Hc & Hcs & Hp & Hps & Ho & Hos & Hs & Hu).
    rewrite Hu. destruct (find _ _); unfold alike; simpl; tauto.
Qed.

Lemma run_alike (reqs : list (Z * request)) (st st' : store) :
  alike st st' -> alike (Part000.run st reqs) (run cfg st' reqs).
Proof.
  revert st st'. induction reqs as [|[now req] reqs IH]; intros st st' Halike;
    simpl; [exact Halike|].
  apply IH. apply handle_alike. exact Halike.
Qed.

(** X19.  The earlier server file and [server.js], given the same requests
    at the same clock readings from the same store, end in stores that
    differ in the image columns of categories and products at most: the
    rows, their rowids and names, the orders, the leave status and the
    uploaded files are the same, and so are the answers to GET /orders and
    GET /status/leave. *)
Theorem part_000_differs_in_images_only (now : Z) (st : store)
    (reqs : list (Z * request)) :
  without_images (Part000.run st reqs) = without_images (run cfg st reqs)
  /\ orders (Part000.run st reqs) = orders (run cfg st reqs)
  /\ status (Part000.run st reqs) = status (run cfg st reqs)
  /\ uploads (Part000.run st reqs) = uploads (run cfg st reqs)
  /\ snd (Part000.handle now (Part000.run st reqs) GET_orders)
     = snd (handle cfg now (run cfg st reqs) GET_orders)
  /\ snd (Part000.handle now (Part000.run st reqs) GET_status_leave)
     = snd (handle cfg now (run cfg st reqs) GET_status_leave).
Proof.
  assert (Hrefl : alike st st) by (unfold alike; tauto).
  pose proof (run_alike reqs st st Hrefl) as Halike.
  split; [apply alike_without_images; exact Halike|].
  destruct Halike as (Hc & Hcs & Hp & Hps & Ho & Hos & Hs & Hu).
  repeat split; try assumption; simpl.
  - unfold get_orders, select_orders. rewrite Ho. reflexivity.
  - unfold get_status_leave, select_status_value. rewrite Hs. reflexivity.
Qed.

End SideBySide.

(** *** No validation, no cascade *)

(** X20.  The name of a category is not required and a missing name is not
    a duplicate of a missing name: on a table that can take a row, POST
    /categories without [name] succeeds, however many rows without a name
    the table already holds, and adds one more such row. *)
Theorem nameless_category_is_accepted {RT : Runtime} (cfg : config) (now : Z)
    (st : store) (image : option file_part) :
  rowids_left (categories_seq st) (map cat_id (categories st)) ->
  exists rowid url,
    snd (handle cfg now st (POST_categories None image))
      = {| res_status := 200; res_body := JsonCategoryCreated (lastID rowid) url |}
    /\ categories (fst (handle cfg now st (POST_categories None image)))
       = categories st
         ++ [{| cat_id := rowid; cat_name := None; cat_image := url |}].
Proof.
  intros Hleft.
  destruct (post_categories_accepts cfg now st None image Hleft eq_refl)
    as (url & Hres & Htable).
  eexists. exists url. split; [exact Hres|exact Htable].
Qed.

(** X20 at work: a second category without a name. *)
Lemma nameless_category_is_accepted_witness :
  exists rowid url,
    snd (handle (RT := example_runtime) example_config 1700000000999
           (fst (handle (RT := example_runtime) example_config 1700000000123
                   example_store (POST_categories None None)))
           (POST_categories None None))
      = {| res_status := 200; res_body := JsonCategoryCreated (lastID rowid) url |}
    /\ categories
         (fst (handle (RT := example_runtime) example_config 1700000000999
                 (fst (handle (RT := example_runtime) example_config 1700000000123
                         example_store (POST_categories None None)))
                 (POST_categories None None)))
       = categories
           (fst (handle (RT := example_runtime) example_config 1700000000123
                   example_store (POST_categories None None)))
         ++ [{| cat_id := rowid; cat_name := None; cat_image := url |}].
Proof.
  apply (nameless_category_is_accepted (RT := example_runtime) example_config
           1700000000999
           (fst (handle (RT := example_runtime) example_config 1700000000123
                   example_store (POST_categories None None)))
           None).
  unfold rowids_left. simpl. reflexivity.
Defined.

(** X21.  The category of a product is free text, not a reference:
    deleting a category, by id or by name, leaves every product row where
    it is, and GET /products with the name of the deleted category answers
    as it did before the delete. *)
Theorem deleting_a_category_keeps_its_products {RT : Runtime} (cfg : config)
    (now now' : Z) (st : store) (id name : string) :
  products (fst (handle cfg now st (DELETE_categories_id id))) = products st
  /\ products (fst (handle cfg now st (DELETE_categories_by_name name)))
     = products st
  /\ snd (handle cfg now'
            (fst (handle cfg now st (DELETE_categories_by_name name)))
            (GET_products (Some name)))
     = snd (handle cfg now' st (GET_products (Some name))).
Proof.
  repeat split. simpl. unfold get_products. destruct (truthy name); reflexivity.
Qed.

(** *** The upload handlers of the earlier server file *)

(** X22.  In the earlier server file a POST /categories or POST /products
    with a file, on a table that can take the row, appends one row whose
    image is ["/uploads/"] and the generated file name, with no base URL in
    front, stores the file under that name, and answers 200 with the rowid
    alone, as a JavaScript number, without an [image] field. *)
Theorem part_000_stores_image_paths {RT : Runtime} (now : Z) (st : store)
    (cname pname description price category : option string)
    (file : file_part) :
  rowids_left (categories_seq st) (map cat_id (categories st)) ->
  name_taken cname (categories st) = false ->
  rowids_left (products_seq st) (map prod_id (products st)) ->
  (exists rowid,
     snd (Part000.handle now st (POST_categories cname (Some file)))
     = {| res_status := 200; res_body := JsonCategoryId (lastID rowid) |}
     /\ categories (fst (Part000.handle now st (POST_categories cname (Some file))))
        = categories st ++
            [{| cat_id := rowid; cat_name := cname;
                cat_image :=
                  Some ("/uploads/" ++ number_to_string now ++
                        path_extname (originalname file))%string |}]
     /\ (forall r, In r (categories st) -> cat_id r < rowid)
     /\ find (fun f => (fst f =? number_to_string now ++
                                path_extname (originalname file))%string)
           (uploads (fst (Part000.handle now st
                            (POST_categories cname (Some file)))))
        = Some ((number_to_string now ++ path_extname (originalname file))%string,
                file_content file))
  /\ (exists rowid,
        snd (Part000.handle now st
               (POST_products pname description price category (Some file)))
        = {| res_status := 200; res_body := JsonProductId (lastID rowid) |}
        /\ products (fst (Part000.handle now st
                            (POST_products pname description price category
                                           (Some file))))
           = products st ++
               [{| prod_id := rowid; prod_name := pname;
                   prod_description := description;
                   prod_price := price_cell price;
                   prod_image :=
                     Some ("/uploads/" ++ number_to_string now ++
                           path_extname (originalname file))%string;
                   prod_category := category |}]
        /\ (forall r, In r (products st) -> prod_id r < rowid)
        /\ find (fun f => (fst f =? number_to_string now ++
                                   path_extname (originalname file))%string)
              (uploads (fst (Part000.handle now st
                               (POST_products pname description price category
                                              (Some file)))))
           = Some ((number_to_string now ++ path_extname (originalname file))%string,
                   file_content file)).
Proof.
  intros Hcleft Hfree Hpleft. split.
  - exists (Z.max (categories_seq st) (max_rowid (map cat_id (categories st))) + 1).
    simpl. unfold Part000.post_categories. simpl.
    rewrite insert_category_ok by assumption. simpl.
    split; [reflexivity|]. split; [reflexivity|]. split.
    + intros r Hin. pose proof (max_rowid_upper _ _ (in_map cat_id _ _ Hin)). lia.
    + unfold multer_filename. apply find_write_file.
  - exists (Z.max (products_seq st) (max_rowid (map prod_id (products st))) + 1).
    simpl. unfold Part000.post_products, insert_product. simpl.
    rewrite (autoincrement_ok _ _ Hpleft). simpl.
    split; [reflexivity|]. split; [reflexivity|]. split.
    + intros r Hin. pose proof (max_rowid_upper _ _ (in_map prod_id _ _ Hin)). lia.
    + unfold multer_filename. apply find_write_file.
Qed.

(** X22 at work: "Spices" and "Ghee" with a picture, on the example store. *)
Lemma part_000_stores_image_paths_witness :
  (exists rowid,
     snd (Part000.handle (RT := example_runtime) 1700000000123 example_store
            (POST_categories (Some "Spices")
               (Some {| originalname := "s.png"; file_content := "png" |})))
     = {| res_status := 200; res_body := JsonCategoryId (lastID rowid) |}
     /\ categories
          (fst (Part000.handle (RT := example_runtime) 1700000000123 example_store
                  (POST_categories (Some "Spices")
                     (Some {| originalname := "s.png"; file_content := "png" |}))))
        = categories example_store ++
            [{| cat_id := rowid; cat_name := Some "Spices";
                cat_image := Some "/uploads/1700000000123.png" |}])
  /\ (exists rowid,
        snd (Part000.handle (RT := example_runtime) 1700000000123 example_store
               (POST_products (Some "Ghee") None (Some "450") (Some "Dairy")
                  (Some {| originalname := "s.png"; file_content := "png" |})))
        = {| res_status := 200; res_body := JsonProductId (lastID rowid) |}
        /\ products
             (fst (Part000.handle (RT := example_runtime) 1700000000123
                     example_store
                     (POST_products (Some "Ghee") None (Some "450") (Some "Dairy")
                        (Some {| originalname := "s.png";
                                 file_content := "png" |}))))
           = products example_store ++
               [{| prod_id := rowid; prod_name := Some "Ghee";
                   prod_description := None;
                   prod_price := SqlInteger 450;
                   prod_image := Some "/uploads/1700000000123.png";
                   prod_category := Some "Dairy" |}]).
Proof.
  destruct (part_000_stores_image_paths (RT := example_runtime) 1700000000123
              example_store (Some "Spices") (Some "Ghee") None (Some "450")
              (Some "Dairy") {| originalname := "s.png"; file_content := "png" |})
    as [(c & Hc1 & Hc2 & _) (q & Hp1 & Hp2 & _)].
  - unfold rowids_left. simpl. reflexivity.
  - reflexivity.
  - unfold rowids_left. simpl. reflexivity.
  - split; [exists c|exists q]; split; assumption.
Defined.
